(** * Retrieval and chunking pipeline of the RAG assistant

    A shallow embedding of [simple_doc_retrieval.py], of
    [utils/file_processor.py] (extension dispatch of [process_file]) and of
    [utils/gemini_handler.py] (the multimodal request path), together with the
    properties the specification states about them.  It is followed by the
    text path of the Gemini handler, [utils/rag_tools.py], the file loop of
    [utils/crewai_agents.py] and the script of [simple_app.py], with
    properties read off that code.

    Conventions of the embedding:
    - a Python [str] is a [string]; its characters are the 8-bit characters of
      [ascii], and [str.lower] acts on the letters A-Z;
    - a Python [int] is a [Z];
    - an exception is a value of [exn]; code that can raise returns a [result];
    - a [dict] is an association list in insertion order, as iteration order
      is observable in [query];
    - paths follow the POSIX rules of [os.path] (separator [/]);
    - libraries the code calls (PDF and DOCX readers, the file system, the
      MIME table, the generation service) are fields of an environment
      record, so every function below is executable once one is supplied;
    - calls that leave the object (chunking requests, generation requests) are
      recorded in a list of events returned next to the result. *)

From Stdlib Require Import ZArith List Bool Ascii String Lia.
From Stdlib.Strings Require Import Byte.
Import ListNotations.

Local Open Scope list_scope.
Local Open Scope string_scope.
Local Open Scope Z_scope.

(** ** Python values and built-ins used by the code *)

Module Py.

Record exn : Type := Exception { exn_type : string; exn_str : string }.

Inductive result (A : Type) : Type :=
| Ok (a : A)
| Raise (e : exn).
Arguments Ok {A} a.
Arguments Raise {A} e.

Definition bind {A B : Type} (r : result A) (k : A -> result B) : result B :=
  match r with
  | Ok a => k a
  | Raise e => Raise e
  end.

Notation "x <- r ;; k" := (bind r (fun x => k))
  (at level 61, r at next level, right associativity).

(** Line feed, the character written [\n] in the source. *)
Definition nl : string := String (ascii_of_nat 10) "".

(** Truth value of a [str]: false exactly for the empty string. *)
Definition truthy (s : string) : bool :=
  match s with
  | EmptyString => false
  | String _ _ => true
  end.

(** Truth value of an [Optional[str]]. *)
Definition truthy_opt (o : option string) : bool :=
  match o with
  | None => false
  | Some s => truthy s
  end.

Definition len (s : string) : Z := Z.of_nat (String.length s).

(** Index adjustment of a slice bound (step 1), as [PySlice_AdjustIndices]. *)
Definition adjust_index (n i : Z) : Z :=
  if i <? 0 then (if i + n <? 0 then 0 else i + n)
  else if n <=? i then n else i.

(** [s[start:stop]]; [None] is an omitted bound. *)
Definition slice (s : string) (start stop : option Z) : string :=
  let n := len s in
  let lo := match start with None => 0 | Some i => adjust_index n i end in
  let hi := match stop with None => n | Some j => adjust_index n j end in
  if lo <? hi then substring (Z.to_nat lo) (Z.to_nat (hi - lo)) s else "".

(** Number of elements of [range(lo, hi, step)] for a non-zero step. *)
Definition range_length (lo hi step : Z) : Z :=
  if 0 <? step then (if lo <? hi then (hi - lo - 1) / step + 1 else 0)
  else (if hi <? lo then (lo - hi - 1) / (- step) + 1 else 0).

(** [range(lo, hi, step)]: a zero step raises [ValueError]. *)
Definition range (lo hi step : Z) : result (list Z) :=
  if step =? 0 then
    Raise (Exception "ValueError" "range() arg 3 must not be zero")
  else
    Ok (map (fun k => lo + Z.of_nat k * step)
            (seq 0 (Z.to_nat (range_length lo hi step)))).

Definition lower_char (c : ascii) : ascii :=
  let n := nat_of_ascii c in
  if andb (Nat.leb 65 n) (Nat.leb n 90) then ascii_of_nat (n + 32) else c.

(** [s.lower()] *)
Fixpoint lower (s : string) : string :=
  match s with
  | EmptyString => EmptyString
  | String c s' => String (lower_char c) (lower s')
  end.

(** [s.lstrip(c)] for a single character [c]. *)
Fixpoint lstrip (c : ascii) (s : string) : string :=
  match s with
  | EmptyString => EmptyString
  | String a s' => if Ascii.eqb a c then lstrip c s' else s
  end.

(** [s.startswith(p)] *)
Definition startswith (s p : string) : bool := String.prefix p s.

Fixpoint rfind_from (c : ascii) (s : string) (i acc : Z) : Z :=
  match s with
  | EmptyString => acc
  | String a s' => rfind_from c s' (i + 1) (if Ascii.eqb a c then i else acc)
  end.

(** [s.rfind(c)]: the highest index of [c] in [s], or -1. *)
Definition rfind (s : string) (c : ascii) : Z := rfind_from c s 0 (-1).

(** The loop of [genericpath._splitext] that skips the leading dots of the
    file name; [fuel] bounds the iterations by [dotIndex - filenameIndex]. *)
Fixpoint splitext_scan (fuel : nat) (p : string) (filenameIndex dotIndex : Z)
  : string * string :=
  match fuel with
  | O => (p, slice p None (Some 0))
  | S fuel' =>
      if filenameIndex <? dotIndex then
        if negb (String.eqb (slice p (Some filenameIndex) (Some (filenameIndex + 1))) ".")
        then (slice p None (Some dotIndex), slice p (Some dotIndex) None)
        else splitext_scan fuel' p (filenameIndex + 1) dotIndex
      else (p, slice p None (Some 0))
  end.

(** [os.path.splitext(p)] *)
Definition splitext (p : string) : string * string :=
  let sepIndex := rfind p "/" in
  let dotIndex := rfind p "." in
  if sepIndex <? dotIndex then
    splitext_scan (Z.to_nat (dotIndex - (sepIndex + 1))) p (sepIndex + 1) dotIndex
  else (p, slice p None (Some 0)).

(** [os.path.basename(p)] *)
Definition basename (p : string) : string :=
  slice p (Some (rfind p "/" + 1)) None.

(** [s.endswith(c)] for a single character [c]. *)
Definition endswith_char (s : string) (c : ascii) : bool :=
  String.eqb (slice s (Some (-1)) None) (String c "").

(** [os.path.join(a, b)] *)
Definition path_join (a b : string) : string :=
  if startswith b "/" then b
  else if negb (truthy a) || endswith_char a "/" then a ++ b
  else a ++ "/" ++ b.

(** [sep.join(parts)] *)
Fixpoint join (sep : string) (parts : list string) : string :=
  match parts with
  | [] => ""
  | [x] => x
  | x :: rest => x ++ sep ++ join sep rest
  end.

(** A [dict] with [str] keys, in insertion order. *)
Definition dict (V : Type) : Type := list (string * V).

(** [d[k] = v]: an existing key keeps its position. *)
Fixpoint dict_set {V : Type} (k : string) (v : V) (d : dict V) : dict V :=
  match d with
  | [] => [(k, v)]
  | (k', v') :: d' =>
      if String.eqb k' k then (k, v) :: d' else (k', v') :: dict_set k v d'
  end.

(** [d.get(k)] *)
Fixpoint dict_get {V : Type} (k : string) (d : dict V) : option V :=
  match d with
  | [] => None
  | (k', v') :: d' => if String.eqb k' k then Some v' else dict_get k d'
  end.

(** [k in d] *)
Definition dict_mem {V : Type} (k : string) (d : dict V) : bool :=
  match dict_get k d with
  | Some _ => true
  | None => false
  end.

(** [x in l] for a list of [str]. *)
Definition mem_str (x : string) (l : list string) : bool :=
  existsb (String.eqb x) l.

(** Truth value of a [dict] or a [list]: false exactly when empty. *)
Definition nonempty {A : Type} (l : list A) : bool :=
  match l with
  | [] => false
  | _ :: _ => true
  end.

(** The characters of a [str], in order. *)
Abbreviation chars := list_ascii_of_string.

(** [sub in s] for two [str]: [sub] occurs somewhere in [s]. *)
Fixpoint contains (s sub : string) : bool :=
  if String.prefix sub s then true
  else match s with
       | EmptyString => false
       | String _ s' => contains s' sub
       end.

(** [c.isspace()] on the 8-bit characters. *)
Definition is_space (c : ascii) : bool :=
  let n := nat_of_ascii c in
  (Nat.leb 9 n && Nat.leb n 13) || (Nat.leb 28 n && Nat.leb n 32)
  || Nat.eqb n 133 || Nat.eqb n 160.

Fixpoint lstrip_space (s : string) : string :=
  match s with
  | EmptyString => EmptyString
  | String c s' => if is_space c then lstrip_space s' else s
  end.

Fixpoint rstrip_space (s : string) : string :=
  match s with
  | EmptyString => EmptyString
  | String c s' =>
      match rstrip_space s' with
      | EmptyString => if is_space c then EmptyString else String c EmptyString
      | String c' r => String c (String c' r)
      end
  end.

(** [s.strip()] *)
Definition strip (s : string) : string := rstrip_space (lstrip_space s).

End Py.

Import Py.

(** ** simple_doc_retrieval.py *)

Module SimpleDocRetrieval.

(** The value stored under a file name in [self.documents]. *)
Record Document : Type := mkDocument {
  path : string;
  chunks : list string;
  full_text : string
}.

(** The attributes of a [SimpleDocRetrieval] object.  [model] is the name of
    the generative model the object was configured with. *)
Record t : Type := mkT {
  api_key : string;
  model : string;
  temp_dir : string;
  documents : dict Document;
  chunk_size : Z;
  chunk_overlap : Z
}.

Definition set_documents (self : t) (d : dict Document) : t :=
  {| api_key := api_key self;
     model := model self;
     temp_dir := temp_dir self;
     documents := d;
     chunk_size := chunk_size self;
     chunk_overlap := chunk_overlap self |}.

(** What the object does to the outside: a request to the chunker and a
    request to the generation service. *)
Inductive event : Type :=
| Chunked (text : string)
| Generated (model_name : string) (prompt : string).

(** The libraries and the file system the object reads from.
    - [pdf_pages p]: opening [p] with the PDF reader, then the text of each
      page in turn; either step may raise;
    - [txt_read p]: reading [p] as text;
    - [docx_paragraphs p]: the paragraph texts of the DOCX file [p];
    - [generate_content m prompt]: the text of the service's response for
      model [m], or the exception the call or the access to the text raises. *)
Record Env : Type := mkEnv {
  pdf_pages : string -> result (list (result string));
  txt_read : string -> result string;
  docx_paragraphs : string -> result (list string);
  generate_content : string -> string -> result string
}.

(** [__init__]; [tmp] is the value of [tempfile.gettempdir()]. *)
Definition init (tmp key : string) : t :=
  {| api_key := key;
     model := "gemini-1.5-pro";
     temp_dir := path_join tmp "simple_doc_retrieval";
     documents := [];
     chunk_size := 1000;
     chunk_overlap := 200 |}.

Fixpoint pdf_accumulate (text : string) (pages : list (result string))
  : result string :=
  match pages with
  | [] => Ok text
  | Ok page_text :: rest => pdf_accumulate (text ++ page_text ++ nl) rest
  | Raise e :: _ => Raise e
  end.

Definition _extract_from_pdf (env : Env) (file_path : string) : string :=
  match (pages <- pdf_pages env file_path ;; pdf_accumulate "" pages) with
  | Ok text => text
  | Raise _ => ""
  end.

Definition _extract_from_txt (env : Env) (file_path : string) : string :=
  match txt_read env file_path with
  | Ok text => text
  | Raise _ => ""
  end.

Definition _extract_from_docx (env : Env) (file_path : string) : string :=
  match docx_paragraphs env file_path with
  | Ok paragraphs => join nl paragraphs
  | Raise _ => ""
  end.

Definition extract_text_from_file (env : Env) (file_path : string)
  : option string :=
  let file_extension := lower (snd (splitext file_path)) in
  if String.eqb file_extension ".pdf" then Some (_extract_from_pdf env file_path)
  else if String.eqb file_extension ".txt" then Some (_extract_from_txt env file_path)
  else if String.eqb file_extension ".docx" then Some (_extract_from_docx env file_path)
  else None.

(** One iteration of the loop of [chunk_text]. *)
Definition chunk_step (self : t) (text : string) (acc : list string) (i : Z)
  : list string :=
  let chunk := slice text (Some i) (Some (i + chunk_size self)) in
  if truthy chunk then (acc ++ [chunk])%list else acc.

Definition chunk_text (self : t) (text : string) : result (list string) :=
  if negb (truthy text) then Ok []
  else
    starts <- range 0 (len text) (chunk_size self - chunk_overlap self) ;;
    Ok (fold_left (chunk_step self text) starts []).

Definition add_document (env : Env) (self : t) (file_path : string)
  : bool * t * list event :=
  let document_text := extract_text_from_file env file_path in
  if negb (truthy_opt document_text) then (false, self, [])
  else
    let document_text := match document_text with Some s => s | None => "" end in
    match chunk_text self document_text with
    | Raise _ => (false, self, [Chunked document_text])
    | Ok chunks =>
        let file_name := basename file_path in
        (true,
         set_documents self
           (dict_set file_name
              {| path := file_path; chunks := chunks; full_text := document_text |}
              (documents self)),
         [Chunked document_text])
    end.

(** The body of the loop of [query] over [self.documents.items()]: the
    successive [context += ...] for one document. *)
Definition append_document (context doc_name : string) (doc_data : Document)
  : string :=
  if nonempty (chunks doc_data) then
    let context := context ++ ("Document: " ++ doc_name ++ nl) in
    let context := context ++ ("Excerpt from beginning:" ++ nl) in
    let context :=
      context ++ (slice (nth 0 (chunks doc_data) "") None (Some 500) ++ "..." ++ nl ++ nl) in
    if 1 <? Z.of_nat (List.length (chunks doc_data)) then
      let context := context ++ ("Excerpt from end:" ++ nl) in
      context ++ ("..." ++ slice (last (chunks doc_data) "") (Some (-500)) None ++ nl ++ nl)
    else context
  else context.

Definition build_context (docs : dict Document) : string :=
  fold_left (fun context item => append_document context (fst item) (snd item))
    docs ("Here are excerpts from relevant documents:" ++ nl ++ nl).

Definition indent12 : string := "            ".

Definition build_prompt (context question : string) : string :=
  nl ++
  indent12 ++ "I'll provide you with some context from documents, and then ask a question." ++ nl ++
  indent12 ++ "Please answer the question based on the context provided." ++ nl ++
  indent12 ++ nl ++
  indent12 ++ "Context:" ++ nl ++
  indent12 ++ context ++ nl ++
  indent12 ++ nl ++
  indent12 ++ "Question: " ++ question ++ nl ++
  indent12 ++ nl ++
  indent12 ++ "Please provide a comprehensive answer. If the information is not found in the context, " ++ nl ++
  indent12 ++ "state that clearly and give a best guess based on your general knowledge." ++ nl ++
  indent12.

Definition no_documents : string := "No documents have been added to the system.".

Definition query (env : Env) (self : t) (question : string)
  : string * list event :=
  if negb (nonempty (documents self)) then (no_documents, [])
  else
    let context := build_context (documents self) in
    let prompt := build_prompt context question in
    match generate_content env (model self) prompt with
    | Ok text => (text, [Generated (model self) prompt])
    | Raise e =>
        ("Error querying documents: " ++ exn_str e, [Generated (model self) prompt])
    end.

Definition clear (self : t) : bool * t := (true, set_documents self []).

End SimpleDocRetrieval.

(** ** utils/file_processor.py *)

Module FileProcessor.

(** The values found in the records [process_file] returns.  [POpaque] stands
    for a value the dispatch never inspects (a float, a metadata record). *)
Inductive pyval : Type :=
| PBool (b : bool)
| PStr (s : string)
| PInt (z : Z)
| POpaque (repr : string).

Definition record : Type := dict pyval.

Definition handler : Type := string -> result record.

(** The per-format methods; their bodies call the PDF, image, audio, video
    and Office libraries. *)
Record Handlers : Type := mkHandlers {
  _process_pdf : handler;
  _process_text : handler;
  _process_image : handler;
  _process_audio : handler;
  _process_video : handler;
  _process_docx : handler;
  _process_pptx : handler
}.

Record t : Type := mkT { supported_extensions : dict handler }.

(** [__init__] *)
Definition init (h : Handlers) : t :=
  {| supported_extensions :=
       [ ("pdf", _process_pdf h);
         ("txt", _process_text h);
         ("png", _process_image h);
         ("jpg", _process_image h);
         ("jpeg", _process_image h);
         ("mp3", _process_audio h);
         ("wav", _process_audio h);
         ("mp4", _process_video h);
         ("docx", _process_docx h);
         ("pptx", _process_pptx h) ] |}.

Definition process_file (self : t) (file_path : string) : record :=
  let ext := lower (lstrip "." (snd (splitext file_path))) in
  match dict_get ext (supported_extensions self) with
  | None =>
      [ ("success", PBool false);
        ("error", PStr ("Unsupported file type: " ++ ext));
        ("file_path", PStr file_path) ]
  | Some processor_func =>
      match processor_func file_path with
      | Ok result =>
          dict_set "file_type" (PStr ext)
            (dict_set "file_path" (PStr file_path) result)
      | Raise e =>
          [ ("success", PBool false);
            ("error", PStr (exn_str e));
            ("file_path", PStr file_path) ]
      end
  end.

(** [get_mime_type]; [guess p] is the first component of
    [mimetypes.guess_type(p)]. *)
Definition get_mime_type (guess : string -> option string) (file_path : string)
  : string :=
  let mime_type := guess file_path in
  if truthy_opt mime_type then
    match mime_type with Some m => m | None => "" end
  else
    let ext := lower (snd (splitext file_path)) in
    if mem_str ext [".jpg"; ".jpeg"] then "image/jpeg"
    else if String.eqb ext ".png" then "image/png"
    else if String.eqb ext ".pdf" then "application/pdf"
    else if String.eqb ext ".txt" then "text/plain"
    else if String.eqb ext ".mp3" then "audio/mpeg"
    else if String.eqb ext ".wav" then "audio/wav"
    else if String.eqb ext ".mp4" then "video/mp4"
    else if String.eqb ext ".docx" then
      "application/vnd.openxmlformats-officedocument.wordprocessingml.document"
    else if String.eqb ext ".pptx" then
      "application/vnd.openxmlformats-officedocument.presentationml.presentation"
    else "application/octet-stream".

End FileProcessor.

(** ** utils/gemini_handler.py *)

Module GeminiHandler.

(** One element of the list handed to [generate_content]. *)
Inductive part : Type :=
| Text (s : string)
| Blob (mime_type : string) (data : list byte).

(** A request reaching a generation model. *)
Inductive event : Type :=
| Generated (model_name : string) (request : list part).

(** - [guess_type p]: the first component of [mimetypes.guess_type(p)];
    - [read_bytes p]: opening [p] in binary mode and reading it;
    - [generate_content m request]: the text of the response of model [m]. *)
Record Env : Type := mkEnv {
  guess_type : string -> option string;
  read_bytes : string -> result (list byte);
  generate_content : string -> list part -> result string
}.

Record t : Type := mkT {
  api_key : string;
  text_model : string;
  multimodal_model : string
}.

(** [__init__] *)
Definition init (key : string) : t :=
  {| api_key := key;
     text_model := "gemini-1.5-pro";
     multimodal_model := "gemini-1.5-pro-vision" |}.

(** The [rag_manager] argument: [None] when it is absent, falsy or has no
    [query] attribute, otherwise its [query] method. *)
Definition rag_manager : Type := option (string -> result string).

(** Lines 79-90: the content type of the media file. *)
Definition content_type_of (env : Env) (media_path : string) : string :=
  let content_type := guess_type env media_path in
  if negb (truthy_opt content_type) then
    let ext := lower (snd (splitext media_path)) in
    if mem_str ext [".jpg"; ".jpeg"; ".png"] then "image/" ++ slice ext (Some 1) None
    else if mem_str ext [".mp3"; ".wav"] then "audio/" ++ slice ext (Some 1) None
    else if mem_str ext [".mp4"] then "video/mp4"
    else "application/octet-stream"
  else match content_type with Some c => c | None => "" end.

Definition indent16 : string := "                ".

Definition default_media_prompt : string :=
  "Analyze and describe what you see in this media.".

(** Lines 104-113: the prompt text, wrapped when there is context. *)
Definition build_prompt_text (context text_prompt : string) : string :=
  let asked := if truthy text_prompt then text_prompt else default_media_prompt in
  if truthy context then
    nl ++
    indent16 ++ "Here is some relevant context information: " ++ nl ++
    indent16 ++ context ++ nl ++
    indent16 ++ nl ++
    indent16 ++ "Based on this context and the provided media, please answer the following:" ++ nl ++
    indent16 ++ asked ++ nl ++
    indent16
  else asked.

Definition unsupported_media : string := "Unsupported media type.".

(** Lines 96-101: the context obtained from the RAG manager, if there is
    one; the call may raise. *)
Definition rag_context (rag : rag_manager) (text_prompt : string) : result string :=
  match rag with
  | Some rag_query =>
      rag_query (if truthy text_prompt then text_prompt else "Analyze this media")
  | None => Ok ""
  end.

Definition generate_multimodal_response
  (env : Env) (self : t) (text_prompt media_path : string) (rag : rag_manager)
  : string * list event :=
  let failed (e : exn) := "Error processing multimodal query: " ++ exn_str e in
  let content_type := content_type_of env media_path in
  match read_bytes env media_path with
  | Raise e => (failed e, [])
  | Ok media_bytes =>
      match rag_context rag text_prompt with
      | Raise e => (failed e, [])
      | Ok context =>
          let prompt_text := build_prompt_text context text_prompt in
          let generate (multimodal_prompt : list part) :=
            match generate_content env (multimodal_model self) multimodal_prompt with
            | Ok text => (text, [Generated (multimodal_model self) multimodal_prompt])
            | Raise e => (failed e, [Generated (multimodal_model self) multimodal_prompt])
            end in
          if startswith content_type "image/" then
            generate [Text prompt_text; Blob content_type media_bytes]
          else if startswith content_type "audio/" || startswith content_type "video/" then
            generate [Text prompt_text; Blob content_type media_bytes]
          else (unsupported_media, [])
      end
  end.

(** Lines 46-56 of [generate_text_response]: the prompt, wrapped when there
    is context. *)
Definition build_complete_prompt (context prompt : string) : string :=
  if truthy context then
    nl ++
    indent16 ++ "Here is some relevant context information: " ++ nl ++
    indent16 ++ context ++ nl ++
    indent16 ++ nl ++
    indent16 ++ "Based on this context and your knowledge, please answer the following question:" ++ nl ++
    indent16 ++ prompt ++ nl ++
    indent16
  else prompt.

(** [generate_text_response]; the [str] handed to [generate_content] is
    recorded as the one-part request [[Text complete_prompt]]. *)
Definition generate_text_response
  (env : Env) (self : t) (prompt : string) (rag : rag_manager)
  : string * list event :=
  let failed (e : exn) := "Error generating response: " ++ exn_str e in
  let context :=
    match rag with
    | Some rag_query => rag_query prompt
    | None => Ok ""
    end in
  match context with
  | Raise e => (failed e, [])
  | Ok context =>
      let complete_prompt := build_complete_prompt context prompt in
      match generate_content env (text_model self) [Text complete_prompt] with
      | Ok text => (text, [Generated (text_model self) [Text complete_prompt]])
      | Raise e => (failed e, [Generated (text_model self) [Text complete_prompt]])
      end
  end.

End GeminiHandler.

(** ** utils/rag_tools.py *)

Module RagToolManager.

(** A search tool: built from the shared configuration, or for one source. *)
Inductive tool : Type :=
| Configured
| ForSource (source : string).

(** An entry of a registry list: a [dict] whose values are all [str]. *)
Definition entry : Type := dict string.

(** [self.knowledge_base]: its six keys are fixed by [__init__]. *)
Record registry : Type := mkRegistry {
  documents : list entry;
  web_pages : list entry;
  youtube_videos : list entry;
  images : list entry;
  audio : list entry;
  video : list entry
}.

(** The attributes that change.  [self.rag_tool] is never reassigned, but
    [rag_tool.add] changes what it holds: [rag_contents] lists the sources it
    has accepted, as (data type, source), in order. *)
Record t : Type := mkT {
  rag_contents : list (string * string);
  pdf_tool : tool;
  youtube_tool : tool;
  website_tool : tool;
  knowledge_base : registry
}.

(** The calls made on the tools of [crewai_tools]. *)
Inductive event : Type :=
| RagAdd (data_type source : string)
| MakePdfTool (file_path : string)
| MakeYoutubeTool (url : string)
| MakeWebsiteTool (url : string)
| RagRun (query_text : string)
| PdfRun (with_tool : tool) (query_text pdf : string)
| YoutubeRun (with_tool : tool) (query_text : string)
| WebsiteRun (with_tool : tool) (query_text : string).

(** The tool library and the clock.
    - [now]: [datetime.now().isoformat()] at the time of the call;
    - [rag_add data_type source]: [self.rag_tool.add(...)];
    - [make_*_tool source]: the constructor of a tool for one source;
    - [*_run]: the [run] method of a tool; its value is a [str] or [None]. *)
Record Env : Type := mkEnv {
  now : string;
  rag_add : string -> string -> result unit;
  make_pdf_tool : string -> result unit;
  make_youtube_tool : string -> result unit;
  make_website_tool : string -> result unit;
  rag_run : string -> result (option string);
  pdf_run : tool -> string -> string -> result (option string);
  youtube_run : tool -> string -> result (option string);
  website_run : tool -> string -> result (option string)
}.

(** [__init__] *)
Definition init : t :=
  {| rag_contents := [];
     pdf_tool := Configured;
     youtube_tool := Configured;
     website_tool := Configured;
     knowledge_base := mkRegistry [] [] [] [] [] [] |}.

Definition set_documents (kb : registry) (l : list entry) : registry :=
  mkRegistry l (web_pages kb) (youtube_videos kb) (images kb) (audio kb) (video kb).
Definition set_web_pages (kb : registry) (l : list entry) : registry :=
  mkRegistry (documents kb) l (youtube_videos kb) (images kb) (audio kb) (video kb).
Definition set_youtube_videos (kb : registry) (l : list entry) : registry :=
  mkRegistry (documents kb) (web_pages kb) l (images kb) (audio kb) (video kb).
Definition set_images (kb : registry) (l : list entry) : registry :=
  mkRegistry (documents kb) (web_pages kb) (youtube_videos kb) l (audio kb) (video kb).
Definition set_audio (kb : registry) (l : list entry) : registry :=
  mkRegistry (documents kb) (web_pages kb) (youtube_videos kb) (images kb) l (video kb).
Definition set_video (kb : registry) (l : list entry) : registry :=
  mkRegistry (documents kb) (web_pages kb) (youtube_videos kb) (images kb) (audio kb) l.

Definition set_knowledge_base (self : t) (kb : registry) : t :=
  mkT (rag_contents self) (pdf_tool self) (youtube_tool self) (website_tool self) kb.

(** The object once [self.rag_tool.add(...)] has accepted a source. *)
Definition with_source (self : t) (data_type source : string) : t :=
  mkT (rag_contents self ++ [(data_type, source)])%list
      (pdf_tool self) (youtube_tool self) (website_tool self) (knowledge_base self).

(** A private method: the exception it raises, if any, the object it leaves
    and the tool calls it made. *)
Definition effect : Type := result unit * t * list event.

Definition _add_pdf (env : Env) (self : t) (file_path : string) : effect :=
  match rag_add env "file" file_path with
  | Raise e => (Raise e, self, [RagAdd "file" file_path])
  | Ok _ =>
      let self := with_source self "file" file_path in
      match make_pdf_tool env file_path with
      | Raise e => (Raise e, self, [RagAdd "file" file_path; MakePdfTool file_path])
      | Ok _ =>
          let self := mkT (rag_contents self) (ForSource file_path) (youtube_tool self)
                          (website_tool self) (knowledge_base self) in
          let kb := knowledge_base self in
          (Ok tt,
           set_knowledge_base self
             (set_documents kb
                (documents kb ++
                 [[("type", "pdf"); ("path", file_path);
                   ("filename", basename file_path); ("added_at", now env)]])%list),
           [RagAdd "file" file_path; MakePdfTool file_path])
      end
  end.

Definition _add_document (env : Env) (self : t) (file_path : string) : effect :=
  match rag_add env "file" file_path with
  | Raise e => (Raise e, self, [RagAdd "file" file_path])
  | Ok _ =>
      let self := with_source self "file" file_path in
      let kb := knowledge_base self in
      (Ok tt,
       set_knowledge_base self
         (set_documents kb
            (documents kb ++
             [[("type", lower (lstrip "." (snd (splitext file_path))));
               ("path", file_path);
               ("filename", basename file_path); ("added_at", now env)]])%list),
       [RagAdd "file" file_path])
  end.

Definition media_entry (env : Env) (file_path : string) : entry :=
  [("path", file_path); ("filename", basename file_path); ("added_at", now env)].

Definition _add_image (env : Env) (self : t) (file_path : string) : effect :=
  let kb := knowledge_base self in
  (Ok tt,
   set_knowledge_base self
     (set_images kb (images kb ++ [media_entry env file_path])%list), []).

Definition _add_audio (env : Env) (self : t) (file_path : string) : effect :=
  let kb := knowledge_base self in
  (Ok tt,
   set_knowledge_base self
     (set_audio kb (audio kb ++ [media_entry env file_path])%list), []).

Definition _add_video (env : Env) (self : t) (file_path : string) : effect :=
  let kb := knowledge_base self in
  (Ok tt,
   set_knowledge_base self
     (set_video kb (video kb ++ [media_entry env file_path])%list), []).

Definition _add_youtube_video (env : Env) (self : t) (url : string) : effect :=
  match make_youtube_tool env url with
  | Raise e => (Raise e, self, [MakeYoutubeTool url])
  | Ok _ =>
      let self := mkT (rag_contents self) (pdf_tool self) (ForSource url)
                      (website_tool self) (knowledge_base self) in
      let kb := knowledge_base self in
      (Ok tt,
       set_knowledge_base self
         (set_youtube_videos kb
            (youtube_videos kb ++ [[("url", url); ("added_at", now env)]])%list),
       [MakeYoutubeTool url])
  end.

Definition _add_website (env : Env) (self : t) (url : string) : effect :=
  match rag_add env "web_page" url with
  | Raise e => (Raise e, self, [RagAdd "web_page" url])
  | Ok _ =>
      let self := with_source self "web_page" url in
      match make_website_tool env url with
      | Raise e => (Raise e, self, [RagAdd "web_page" url; MakeWebsiteTool url])
      | Ok _ =>
          let self := mkT (rag_contents self) (pdf_tool self) (youtube_tool self)
                          (ForSource url) (knowledge_base self) in
          let kb := knowledge_base self in
          (Ok tt,
           set_knowledge_base self
             (set_web_pages kb
                (web_pages kb ++ [[("url", url); ("added_at", now env)]])%list),
           [RagAdd "web_page" url; MakeWebsiteTool url])
      end
  end.

(** The [try ... return True / except ... return False] around a method. *)
Definition guarded (r : effect) : bool * t * list event :=
  match r with
  | (Ok _, self, events) => (true, self, events)
  | (Raise _, self, events) => (false, self, events)
  end.

Definition add_to_knowledge_base (env : Env) (self : t) (file_path : string)
  : bool * t * list event :=
  let ext := lower (lstrip "." (snd (splitext file_path))) in
  guarded
    (if String.eqb ext "pdf" then _add_pdf env self file_path
     else if mem_str ext ["txt"; "docx"; "pptx"] then _add_document env self file_path
     else if mem_str ext ["png"; "jpg"; "jpeg"] then _add_image env self file_path
     else if mem_str ext ["mp3"; "wav"] then _add_audio env self file_path
     else if mem_str ext ["mp4"] then _add_video env self file_path
     else _add_document env self file_path).

Definition add_web_content (env : Env) (self : t) (url : string)
  : bool * t * list event :=
  let is_youtube := contains url "youtube.com" || contains url "youtu.be" in
  guarded
    (if is_youtube then _add_youtube_video env self url
     else _add_website env self url).

(** [e[k]] for a key every entry of the list has. *)
Definition field (k : string) (e : entry) : string :=
  match dict_get k e with
  | Some v => v
  | None => ""
  end.

(** [if result and result.strip()] *)
Definition usable (r : option string) : bool :=
  match r with
  | Some text => truthy text && truthy (strip text)
  | None => false
  end.

Definition text_of (r : option string) : string :=
  match r with
  | Some text => text
  | None => ""
  end.

(** The loop over [pdf_docs[:3]] inside its [try]: an exception ends the
    loop and keeps what was appended before. *)
Fixpoint pdf_loop (env : Env) (self : t) (query_text : string)
  (pdf_docs : list entry) (results : list string) (events : list event)
  : list string * list event :=
  match pdf_docs with
  | [] => (results, events)
  | pdf_doc :: rest =>
      let events :=
        (events ++ [PdfRun (pdf_tool self) query_text (field "path" pdf_doc)])%list in
      match pdf_run env (pdf_tool self) query_text (field "path" pdf_doc) with
      | Raise _ => (results, events)
      | Ok pdf_result =>
          let results :=
            if usable pdf_result then
              (results ++ [("### PDF Results (" ++ field "filename" pdf_doc ++ ")"
                              ++ nl ++ text_of pdf_result)%string])%list
            else results in
          pdf_loop env self query_text rest results events
      end
  end.

Definition no_information : string :=
  "No relevant information found in the knowledge base.".

Definition query (env : Env) (self : t) (query_text : string)
  : string * list event :=
  let kb := knowledge_base self in
  let results : list string := [] in
  let events : list event := [] in
  (* general RAG tool *)
  let '(results, events) :=
    if nonempty (documents kb) || nonempty (web_pages kb) then
      match rag_run env query_text with
      | Ok rag_result =>
          (if usable rag_result then
             (results ++ [("### General Knowledge Base Results" ++ nl
                             ++ text_of rag_result)%string])%list
           else results,
           (events ++ [RagRun query_text])%list)
      | Raise _ => (results, (events ++ [RagRun query_text])%list)
      end
    else (results, events) in
  (* PDF tool *)
  let '(results, events) :=
    if nonempty (documents kb) then
      let pdf_docs :=
        filter (fun doc => String.eqb (field "type" doc) "pdf") (documents kb) in
      if nonempty pdf_docs then
        pdf_loop env self query_text (firstn 3 pdf_docs) results events
      else (results, events)
    else (results, events) in
  (* YouTube tool *)
  let '(results, events) :=
    if nonempty (youtube_videos kb) then
      match youtube_run env (youtube_tool self) query_text with
      | Ok yt_result =>
          (if usable yt_result then
             (results ++ [("### YouTube Video Results" ++ nl
                             ++ text_of yt_result)%string])%list
           else results,
           (events ++ [YoutubeRun (youtube_tool self) query_text])%list)
      | Raise _ =>
          (results, (events ++ [YoutubeRun (youtube_tool self) query_text])%list)
      end
    else (results, events) in
  (* Website tool *)
  let '(results, events) :=
    if nonempty (web_pages kb) then
      match website_run env (website_tool self) query_text with
      | Ok web_result =>
          (if usable web_result then
             (results ++ [("### Website Results" ++ nl
                             ++ text_of web_result)%string])%list
           else results,
           (events ++ [WebsiteRun (website_tool self) query_text])%list)
      | Raise _ =>
          (results, (events ++ [WebsiteRun (website_tool self) query_text])%list)
      end
    else (results, events) in
  if nonempty results then (join (nl ++ nl) results, events)
  else (no_information, events).

End RagToolManager.

(** ** utils/crewai_agents.py *)

Module MultimodalCrewAgents.

(** The attribute that changes: the PDF tool. *)
Record t : Type := mkT { pdf_tool : RagToolManager.tool }.

(** The calls made on the tools and on the crew. *)
Inductive event : Type :=
| MakePdfTool (file_path : string)
| RagAdd (data_type source : string)
| Kickoff (with_pdf_tool : RagToolManager.tool) (query : string).

(** - [make_pdf_tool p]: [PDFSearchTool(pdf=p, config=...)];
    - [rag_add data_type source]: [self.rag_tool.add(...)];
    - [kickoff tool query]: building the crew around the current tools and
      running it on the query. *)
Record Env : Type := mkEnv {
  make_pdf_tool : string -> result unit;
  rag_add : string -> string -> result unit;
  kickoff : RagToolManager.tool -> string -> result string
}.

(** [__init__] *)
Definition init : t := {| pdf_tool := RagToolManager.Configured |}.



End MultimodalCrewAgents.

(** ** config/config.py *)

Module Config.

Definition ALLOWED_FILE_TYPES : list string :=
  [ "pdf"; "txt"; "docx"; "pptx";
    "png"; "jpg"; "jpeg";
    "mp3"; "wav";
    "mp4" ].

End Config.

(** ** simple_app.py

    One run of the script is one interaction of the user: the sidebar block
    (lines 24-79) followed by the main area (lines 85-105).  What the widgets
    return is an argument of the run. *)

Module SimpleApp.

(** An element of [st.session_state.processed_files]. *)
Record processed_file : Type := mkProcessed {
  filename : string;
  path : string;
  added_at : string
}.

(** An element of [st.session_state.chat_history]. *)
Record message : Type := mkMessage { role : string; content : string }.

(** [st.session_state]; [None] is a key that is not set. *)
Record session_state : Type := mkState {
  doc_retrieval : option SimpleDocRetrieval.t;
  processed_files : option (list processed_file);
  chat_history : option (list message)
}.

(** A file handed over by the uploader.
    - [name]: its file name;
    - [written]: writing its buffer to the temporary path, which either
      raises or leaves the machine in which [add_document] then runs;
    - [clock]: [datetime.now().isoformat()] when it is tracked. *)
Record uploaded_file : Type := mkUploaded {
  name : string;
  written : result SimpleDocRetrieval.Env;
  clock : string
}.

Definition empty_state : session_state := mkState None None None.

(** The body of the loop over [uploaded_files] (lines 41-65). *)
Definition process_upload
  (dr : SimpleDocRetrieval.t) (files : option (list processed_file))
  (uploaded : uploaded_file)
  : result unit * SimpleDocRetrieval.t * option (list processed_file) :=
  let temp_dir := SimpleDocRetrieval.temp_dir dr in
  let temp_file_path := path_join temp_dir (name uploaded) in
  let files := match files with None => [] | Some l => l end in
  if mem_str (name uploaded) (map filename files) then (Ok tt, dr, Some files)
  else
    match written uploaded with
    | Raise e => (Raise e, dr, Some files)
    | Ok env =>
        let '(success, dr, _) := SimpleDocRetrieval.add_document env dr temp_file_path in
        if success then
          (Ok tt, dr,
           Some (files ++ [mkProcessed (name uploaded) temp_file_path (clock uploaded)])%list)
        else (Ok tt, dr, Some files)
    end.

(** The loop itself: an exception leaves it with the state reached so far. *)
Fixpoint upload_loop
  (dr : SimpleDocRetrieval.t) (files : option (list processed_file))
  (uploaded_files : list uploaded_file)
  : result unit * SimpleDocRetrieval.t * option (list processed_file) :=
  match uploaded_files with
  | [] => (Ok tt, dr, files)
  | uploaded :: rest =>
      match process_upload dr files uploaded with
      | (Raise e, dr, files) => (Raise e, dr, files)
      | (Ok _, dr, files) => upload_loop dr files rest
      end
  end.

(** How a block of the script ends: it falls through to the next block, it
    asks for a rerun of the script, or it stops on an exception. *)
Inductive outcome : Type :=
| Continue
| Rerun
| Failed (e : exn).

(** The sidebar block.  [clear_clicked] is the value of the "Clear All
    Documents" button, which exists only when some file is tracked. *)
Definition sidebar
  (tmp api_key : string) (uploaded_files : list uploaded_file)
  (clear_clicked : bool) (st : session_state)
  : outcome * session_state :=
  if truthy api_key then
    let dr :=
      match doc_retrieval st with
      | None => SimpleDocRetrieval.init tmp api_key
      | Some dr => dr
      end in
    let '(r, dr, files) :=
      if nonempty uploaded_files then upload_loop dr (processed_files st) uploaded_files
      else (Ok tt, dr, processed_files st) in
    match r with
    | Raise e => (Failed e, mkState (Some dr) files (chat_history st))
    | Ok _ =>
        let tracked := match files with Some l => nonempty l | None => false end in
        if tracked && clear_clicked then
          (Rerun,
           mkState (Some (SimpleDocRetrieval.init tmp api_key)) (Some [])
                   (chat_history st))
        else (Continue, mkState (Some dr) files (chat_history st))
    end
  else (Continue, st).

(** The main area: a question is answered by [query] and both turns are
    appended to the chat history. *)
Definition main_area
  (env : SimpleDocRetrieval.Env) (question : string) (st : session_state)
  : session_state * list SimpleDocRetrieval.event :=
  match doc_retrieval st with
  | None => (st, [])
  | Some dr =>
      if truthy question then
        let '(answer, events) := SimpleDocRetrieval.query env dr question in
        let history := match chat_history st with None => [] | Some h => h end in
        (mkState (doc_retrieval st) (processed_files st)
           (Some (history ++ [mkMessage "user" question;
                              mkMessage "assistant" answer])%list),
         events)
      else (st, [])
  end.

(** What the widgets return in one run of the script. *)
Record interaction : Type := mkInteraction {
  api_key : string;
  uploaded_files : list uploaded_file;
  clear_clicked : bool;
  question : string;
  machine : SimpleDocRetrieval.Env
}.

(** One run of the script: the main area runs only when the sidebar fell
    through. *)
Definition script (tmp : string) (st : session_state) (i : interaction)
  : session_state :=
  match sidebar tmp (api_key i) (uploaded_files i) (clear_clicked i) st with
  | (Continue, st) => fst (main_area (machine i) (question i) st)
  | (_, st) => st
  end.

End SimpleApp.

(** * Vocabulary of the properties *)

(** ** Chunking *)

Module Chunking.

(** The ceiling of [a / b] for a positive [b]. *)
Definition ceil_div (a b : Z) : Z := (a + b - 1) / b.

(** The text rebuilt from its chunks: the first chunk, then every later chunk
    without its first [overlap] characters. *)
Definition reassemble (overlap : Z) (chunks : list string) : string :=
  match chunks with
  | [] => ""
  | first :: rest =>
      first ++ String.concat "" (map (fun c => slice c (Some overlap) None) rest)
  end.

(** The exception [range] raises for a zero step. *)
Definition zero_step_error : exn :=
  Exception "ValueError" "range() arg 3 must not be zero".

(** The window of width [zn] that starts at character [k * sn] of [l]. *)
Definition window {A : Type} (l : list A) (sn zn k : nat) : list A :=
  firstn zn (skipn (k * sn) l).

End Chunking.

(** ** Sessions on a store *)

Module Session.
Import SimpleDocRetrieval.

(** The three components of what [add_document] yields. *)
Definition returned {A B C : Type} (r : A * B * C) : A := fst (fst r).

Definition after {A B C : Type} (r : A * B * C) : B := snd (fst r).

Definition emitted {A B C : Type} (r : A * B * C) : C := snd r.

(** The number of chunks stored under [name], when present. *)
Definition chunk_count (self : t) (name : string) : option nat :=
  option_map (fun d => List.length (chunks d)) (dict_get name (documents self)).

(** The callers of the object: uploads, questions and the clear button. *)
Inductive op : Type :=
| Add (env : Env) (file_path : string)
| Ask (env : Env) (question : string)
| Clear.

Definition step (self : t) (o : op) : t :=
  match o with
  | Add env file_path => after (add_document env self file_path)
  | Ask _ _ => self
  | Clear => snd (clear self)
  end.

(** The object after a session [ops] that started with the constructor. *)
Definition run (tmp key : string) (ops : list op) : t :=
  fold_left step ops (init tmp key).

(** What holds of every object a session can reach. *)
Definition store_ok (self : t) : Prop :=
  chunk_size self = 1000 /\ chunk_overlap self = 200
  /\ Forall (fun item : string * Document =>
               full_text (snd item) <> ""
               /\ chunk_text self (full_text (snd item)) = Ok (chunks (snd item)))
            (documents self).

End Session.

(** ** The assembled context *)

Module Assembly.
Import SimpleDocRetrieval.

Definition context_header : string :=
  "Here are excerpts from relevant documents:" ++ nl ++ nl.

(** What one document adds to the context. *)
Definition document_block (item : string * Document) : string :=
  append_document "" (fst item) (snd item).

(** The name line and the beginning excerpt of a block: the first chunk cut
    to its first 500 characters. *)
Definition beginning_section (name first : string) : string :=
  "Document: " ++ name ++ nl ++
  "Excerpt from beginning:" ++ nl ++
  substring 0 500 first ++ "..." ++ nl ++ nl.

Definition end_label : string := "Excerpt from end:" ++ nl.

End Assembly.

(** ** Ingestion by extension *)

Module Ingestion.

(** The extensions the ingestion interface accepts. *)
Definition supported_set : list string :=
  ["pdf"; "txt"; "docx"; "pptx"; "png"; "jpg"; "jpeg"; "mp3"; "wav"; "mp4"].

(** The extension of a path as [process_file] computes it: without its dot,
    in lower case. *)
Definition extension (file_path : string) : string :=
  lower (lstrip "." (snd (splitext file_path))).

End Ingestion.

(** ** Multimodal requests *)

Module Multimodal.
Import GeminiHandler.

(** The content types the handler sends to the model. *)
Definition supported_category (content_type : string) : bool :=
  startswith content_type "image/"
  || startswith content_type "audio/"
  || startswith content_type "video/".

(** What the user asked, or the default request when the prompt is empty. *)
Definition asked (text_prompt : string) : string :=
  if truthy text_prompt then text_prompt else default_media_prompt.

End Multimodal.

(** ** Sample machines, used to run the code on concrete inputs *)

Module StoreSamples.
Import SimpleDocRetrieval Session.

(** A file system holding two versions of a text file, and an empty one. *)
Definition short_text : string := "first version".

Definition long_text : string :=
  String.concat "" (List.repeat "0123456789" 90).

Definition sample_env : Env :=
  {| pdf_pages := fun _ => Raise (Exception "FileNotFoundError" "no such file");
     txt_read := fun p =>
       if String.eqb p "/tmp/a.txt" then Ok short_text
       else if String.eqb p "/uploads/a.txt" then Ok long_text
       else if String.eqb p "/tmp/x.txt" then Ok ""
       else Raise (Exception "FileNotFoundError" "no such file");
     docx_paragraphs := fun _ => Raise (Exception "FileNotFoundError" "no such file");
     generate_content := fun _ _ => Ok "answer" |}.

(** The object after one upload of [/tmp/a.txt]. *)
Definition sample_store : t :=
  run "/tmp" "key" [Add sample_env "/tmp/a.txt"].

(** An object whose chunking parameters were set to size 5 and overlap 10,
    after the same upload. *)
Definition misconfigured_store : t :=
  after (add_document sample_env
           (mkT "key" "gemini-1.5-pro" "/tmp/simple_doc_retrieval" [] 5 10)
           "/tmp/a.txt").

Definition no_handlers : FileProcessor.Handlers :=
  let missing : FileProcessor.handler := fun _ => Raise (Exception "ImportError" "missing library") in
  FileProcessor.mkHandlers missing missing missing missing missing missing missing.

End StoreSamples.

Module MediaSamples.
Import GeminiHandler.

(** A machine with one readable image and no file [notes.txt]. *)
Definition sample_media_env : Env :=
  {| guess_type := fun p =>
       if String.eqb p "notes.txt" then Some "text/plain" else None;
     read_bytes := fun p =>
       if String.eqb p "/tmp/Photo.PNG" then Ok [x89; x50; x4e; x47]
       else Raise (Exception "FileNotFoundError"
                     "[Errno 2] No such file or directory");
     generate_content := fun _ _ => Ok "a photo" |}.

(** A RAG manager whose [query] raises. *)
Definition failing_rag : rag_manager :=
  Some (fun _ => Raise (Exception "ConnectionError" "knowledge base unavailable")).

End MediaSamples.

(** ** Views of the store and of the context *)

Module Views.
Import SimpleDocRetrieval.

(** The keys of a [dict], in iteration order. *)
Definition keys {V : Type} (d : dict V) : list string := map fst d.

(** A bound on the length of the context [query] builds: 44 characters of
    header and, per document, its name and at most 1063 further characters. *)
Definition context_bound (docs : dict Document) : Z :=
  fold_right (fun item acc => len (fst item) + 1063 + acc) 44 docs.

(** The lines that open the block of a document in the context, with the
    first 500 characters of its text. *)
Definition quoted_beginning (name : string) (d : Document) : string :=
  "Document: " ++ name ++ nl ++
  "Excerpt from beginning:" ++ nl ++
  substring 0 500 (full_text d) ++ "...".

(** A machine with a two-page PDF whose pages carry no text. *)
Definition scanned_pdf_env : Env :=
  {| pdf_pages := fun p =>
       if String.eqb p "/tmp/scan.PDF" then Ok [Ok ""; Ok ""]
       else Raise (Exception "FileNotFoundError" "no such file");
     txt_read := fun _ => Raise (Exception "FileNotFoundError" "no such file");
     docx_paragraphs := fun _ => Raise (Exception "FileNotFoundError" "no such file");
     generate_content := fun _ _ => Raise (Exception "ResourceExhausted" "quota") |}.

End Views.

(** ** Views of the RAG tool manager *)

Module RagViews.
Import RagToolManager.

(** The number of entries of the six registry lists together. *)
Definition registry_size (kb : registry) : nat :=
  (List.length (documents kb) + List.length (web_pages kb)
   + List.length (youtube_videos kb) + List.length (images kb)
   + List.length (audio kb) + List.length (video kb))%nat.

Definition is_pdf_run (e : event) : bool :=
  match e with
  | PdfRun _ _ _ => true
  | _ => false
  end.

(** A result line of [query]: it opens with a markdown heading. *)
Definition headed (line : string) : Prop := exists x, line = "### " ++ x.

(** How a private [_add_*] method leaves the manager that was [self] when
    it was given the source: either it returned and the registry has one more
    entry, or it raised, and then the registry and the three tool attributes
    are what they were while the RAG tool holds what it held, or that and the
    source. *)
Definition settled (self : t) (data_type source : string) (r : effect) : Prop :=
  match fst (fst r) with
  | Ok _ =>
      registry_size (knowledge_base (snd (fst r)))
      = S (registry_size (knowledge_base self))
  | Raise _ =>
      knowledge_base (snd (fst r)) = knowledge_base self
      /\ pdf_tool (snd (fst r)) = pdf_tool self
      /\ youtube_tool (snd (fst r)) = youtube_tool self
      /\ website_tool (snd (fst r)) = website_tool self
      /\ (rag_contents (snd (fst r)) = rag_contents self
          \/ rag_contents (snd (fst r))
             = (rag_contents self ++ [(data_type, source)])%list)
  end.

(** A manager handed to the Gemini handler as its [rag_manager]: the object
    is truthy and has a [query] method, which returns and never raises. *)
Definition as_rag_manager (env : Env) (self : t) : GeminiHandler.rag_manager :=
  Some (fun query_text => Ok (fst (query env self query_text))).

(** The entry [_add_document] logs. *)
Definition document_entry (env : Env) (file_path : string) : entry :=
  [("type", lower (lstrip "." (snd (splitext file_path))));
   ("path", file_path);
   ("filename", basename file_path);
   ("added_at", now env)].

(** A tool library in which every call succeeds and every search answers. *)
Definition helpful_env : Env :=
  {| now := "2024-05-01T10:00:00";
     rag_add := fun _ _ => Ok tt;
     make_pdf_tool := fun _ => Ok tt;
     make_youtube_tool := fun _ => Ok tt;
     make_website_tool := fun _ => Ok tt;
     rag_run := fun _ => Ok (Some "found in the knowledge base");
     pdf_run := fun _ _ _ => Ok (Some "found in the PDF");
     youtube_run := fun _ _ => Ok (Some "found in the video");
     website_run := fun _ _ => Ok (Some "found on the page") |}.

(** A tool library in which the RAG tool refuses every source. *)
Definition failing_env : Env :=
  {| now := "2024-05-01T10:00:00";
     rag_add := fun _ _ => Raise (Exception "ValueError" "cannot load source");
     make_pdf_tool := fun _ => Ok tt;
     make_youtube_tool := fun _ => Ok tt;
     make_website_tool := fun _ => Ok tt;
     rag_run := fun _ => Raise (Exception "RuntimeError" "no index");
     pdf_run := fun _ _ _ => Raise (Exception "RuntimeError" "no index");
     youtube_run := fun _ _ => Raise (Exception "RuntimeError" "no index");
     website_run := fun _ _ => Raise (Exception "RuntimeError" "no index") |}.

(** A tool library in which the RAG tool accepts every source and no
    search tool can be built. *)
Definition half_env : Env :=
  {| now := "2024-05-01T10:00:00";
     rag_add := fun _ _ => Ok tt;
     make_pdf_tool := fun _ => Raise (Exception "ValueError" "cannot read the PDF");
     make_youtube_tool := fun _ => Raise (Exception "ValueError" "no transcript");
     make_website_tool := fun _ => Raise (Exception "ValueError" "cannot fetch");
     rag_run := fun _ => Ok None;
     pdf_run := fun _ _ _ => Ok None;
     youtube_run := fun _ _ => Ok None;
     website_run := fun _ _ => Ok None |}.

End RagViews.

(** ** Views of a session of simple_app.py *)

Module AppViews.
Import SimpleApp.

(** A file name without a directory part, as a browser sends it. *)
Definition slash_free (file_name : string) : bool := negb (contains file_name "/").

Definition well_named (i : interaction) : bool :=
  forallb (fun f => slash_free (name f)) (uploaded_files i).

(** The state after the runs [runs] of the script, from a new session. *)
Definition session (tmp : string) (runs : list interaction) : session_state :=
  fold_left (script tmp) runs empty_state.

(** The file names the sidebar lists as processed. *)
Definition tracked_names (st : session_state) : list string :=
  match processed_files st with
  | Some files => map filename files
  | None => []
  end.

(** The names under which the retrieval object holds a Document. *)
Definition stored_names (st : session_state) : list string :=
  match doc_retrieval st with
  | Some dr => map fst (SimpleDocRetrieval.documents dr)
  | None => []
  end.

(** What the sidebar maintains between the tracked files and the store. *)
Definition in_step (dr : SimpleDocRetrieval.t) (files : option (list processed_file))
  : Prop :=
  match files with Some l => map filename l | None => [] end
  = map fst (SimpleDocRetrieval.documents dr)
  /\ NoDup (map fst (SimpleDocRetrieval.documents dr)).

Definition state_ok (st : session_state) : Prop :=
  tracked_names st = stored_names st /\ NoDup (stored_names st).

(** One run in which the user uploads a readable text file and asks. *)
Definition first_run : interaction :=
  {| api_key := "key";
     uploaded_files :=
       [mkUploaded "a.txt"
          (Ok (SimpleDocRetrieval.mkEnv
                 (fun _ => Raise (Exception "FileNotFoundError" "no such file"))
                 (fun _ => Ok "first version")
                 (fun _ => Raise (Exception "FileNotFoundError" "no such file"))
                 (fun _ _ => Ok "answer")))
          "2024-05-01T10:00:00"];
     clear_clicked := false;
     question := "";
     machine :=
       SimpleDocRetrieval.mkEnv
         (fun _ => Raise (Exception "FileNotFoundError" "no such file"))
         (fun _ => Ok "first version")
         (fun _ => Raise (Exception "FileNotFoundError" "no such file"))
         (fun _ _ => Ok "answer") |}.

(** One run in which the user only asks a question. *)
Definition asking_run : interaction :=
  {| api_key := "key";
     uploaded_files := [];
     clear_clicked := false;
     question := "What is in the report?";
     machine := machine first_run |}.

End AppViews.

(** ** Views of the crew *)

Module CrewViews.
Import MultimodalCrewAgents.



(** A machine on which the RAG tool refuses every source. *)
Definition refusing_env : Env :=
  {| make_pdf_tool := fun _ => Ok tt;
     rag_add := fun _ _ => Raise (Exception "ValueError" "cannot load source");
     kickoff := fun _ _ => Ok "the crew's answer" |}.

End CrewViews.

(** * Properties *)

(** ** Strings as character lists

    Slices are reasoned about on the list of characters of a string, where
    [firstn] and [skipn] describe them. *)

Module PyFacts.

Lemma chars_append (a b : string) : chars (a ++ b) = (chars a ++ chars b)%list.
Proof.
  induction a as [|c a IH]; simpl; [reflexivity | now rewrite IH].
Qed.

Lemma chars_length (s : string) : List.length (chars s) = String.length s.
Proof.
  induction s as [|c s IH]; simpl; [reflexivity | now rewrite IH].
Qed.

Lemma chars_inj (a b : string) : chars a = chars b -> a = b.
Proof.
  intros H.
  rewrite <- (string_of_list_ascii_of_string a), <- (string_of_list_ascii_of_string b).
  now rewrite H.
Qed.

Lemma chars_substring (s : string) :
  forall n m, chars (substring n m s) = firstn m (skipn n (chars s)).
Proof.
  induction s as [|c s IH]; intros [|n] [|m]; simpl; try reflexivity.
  - now rewrite IH.
  - now rewrite IH.
  - now rewrite IH.
Qed.

Lemma truthy_chars (s : string) : truthy s = nonempty (chars s).
Proof. destruct s; reflexivity. Qed.

Lemma truthy_true_iff (s : string) : truthy s = true <-> s <> "".
Proof. destruct s; simpl; split; intros; congruence. Qed.

Lemma len_chars (s : string) : len s = Z.of_nat (List.length (chars s)).
Proof. unfold len. now rewrite chars_length. Qed.

Lemma firstn_skipn_all {A : Type} (l : list A) (n m : nat) :
  (List.length l <= n + m)%nat -> firstn m (skipn n l) = skipn n l.
Proof.
  intros H. apply firstn_all2. rewrite length_skipn. lia.
Qed.

Lemma firstn_plus {A : Type} (l : list A) (a b : nat) :
  firstn (a + b) l = (firstn a l ++ firstn b (skipn a l))%list.
Proof.
  revert l; induction a as [|a IH]; intros l; simpl; [reflexivity|].
  destruct l as [|x l]; simpl.
  - now rewrite firstn_nil.
  - now rewrite IH.
Qed.

(** [s[i:j]] for bounds that are not negative. *)
Lemma chars_slice (s : string) (i j : Z) :
  0 <= i -> 0 <= j ->
  chars (slice s (Some i) (Some j))
  = firstn (Z.to_nat (j - i)) (skipn (Z.to_nat i) (chars s)).
Proof.
  intros Hi Hj. unfold slice, adjust_index.
  pose proof (len_chars s) as HL. set (n := len s) in *.
  destruct (Z.ltb_spec i 0); [lia|]. destruct (Z.ltb_spec j 0); [lia|].
  destruct (Z.leb_spec n i); destruct (Z.leb_spec n j);
    match goal with |- context [?a <? ?b] => destruct (Z.ltb_spec a b) end;
    try lia; rewrite ?chars_substring; simpl.
  - rewrite skipn_all2 by lia. now rewrite firstn_nil.
  - rewrite skipn_all2 by lia. now rewrite firstn_nil.
  - rewrite !firstn_skipn_all by lia. reflexivity.
  - reflexivity.
  - replace (Z.to_nat (j - i)) with 0%nat by lia. reflexivity.
Qed.

(** [s[i:]] for a bound that is not negative. *)
Lemma chars_slice_from (s : string) (i : Z) :
  0 <= i -> chars (slice s (Some i) None) = skipn (Z.to_nat i) (chars s).
Proof.
  intros Hi. unfold slice, adjust_index.
  pose proof (len_chars s) as HL. set (n := len s) in *.
  destruct (Z.ltb_spec i 0); [lia|].
  destruct (Z.leb_spec n i);
    match goal with |- context [?a <? ?b] => destruct (Z.ltb_spec a b) end;
    try lia; rewrite ?chars_substring; simpl.
  - now rewrite skipn_all2 by lia.
  - now rewrite firstn_skipn_all by lia.
Qed.

(** [s[:j]] for a bound that is not negative. *)
Lemma chars_slice_to (s : string) (j : Z) :
  0 <= j -> chars (slice s None (Some j)) = firstn (Z.to_nat j) (chars s).
Proof.
  intros Hj. unfold slice, adjust_index.
  pose proof (len_chars s) as HL. set (n := len s) in *.
  destruct (Z.ltb_spec j 0); [lia|].
  destruct (Z.leb_spec n j);
    match goal with |- context [?a <? ?b] => destruct (Z.ltb_spec a b) end;
    try lia; rewrite ?chars_substring; simpl.
  - rewrite !firstn_all2 by lia. reflexivity.
  - replace (List.length (chars s)) with 0%nat by lia.
    destruct (chars s); [now rewrite firstn_nil | simpl in *; lia].
  - now rewrite Z.sub_0_r.
  - replace (Z.to_nat j) with 0%nat by lia. reflexivity.
Qed.

Lemma append_assoc (a b c : string) : (a ++ b) ++ c = a ++ (b ++ c).
Proof.
  induction a as [|x a IH]; simpl; [reflexivity | now rewrite IH].
Qed.

Lemma append_nil_r (a : string) : a ++ "" = a.
Proof.
  induction a as [|x a IH]; simpl; [reflexivity | now rewrite IH].
Qed.

Lemma append_inv_head (a b c : string) : a ++ b = a ++ c -> b = c.
Proof.
  induction a as [|x a IH]; simpl; intros H; [exact H|].
  injection H as H. now apply IH.
Qed.

Lemma concat_cons (x : string) (l : list string) :
  String.concat "" (x :: l) = x ++ String.concat "" l.
Proof.
  destruct l; simpl; [now rewrite append_nil_r | reflexivity].
Qed.

Lemma startswith_append (p x : string) : startswith (p ++ x) p = true.
Proof.
  unfold startswith. induction p as [|c p IH]; simpl.
  - now destruct x.
  - destruct (ascii_dec c c); [exact IH | contradiction].
Qed.

(** [s[:j]] is the prefix of length [j]. *)
Lemma slice_to_substring (s : string) (j : Z) :
  0 <= j -> slice s None (Some j) = substring 0 (Z.to_nat j) s.
Proof.
  intros Hj. apply chars_inj.
  now rewrite chars_slice_to, chars_substring by lia.
Qed.

End PyFacts.

(** ** The chunker *)

Module ChunkerProps.
Import PyFacts SimpleDocRetrieval Chunking.

Lemma ceil_div_spec (a b : Z) :
  0 < b -> b * (ceil_div a b - 1) < a <= b * ceil_div a b.
Proof.
  intros Hb. unfold ceil_div.
  pose proof (Z.div_mod (a + b - 1) b ltac:(lia)) as Hdm.
  pose proof (Z.mod_pos_bound (a + b - 1) b Hb) as Hr.
  nia.
Qed.

Lemma chars_concat (l : list string) :
  chars (String.concat "" l) = List.concat (map chars l).
Proof.
  induction l as [|x [|y l] IH]; simpl in *.
  - reflexivity.
  - now rewrite app_nil_r.
  - rewrite chars_append. simpl. now rewrite IH.
Qed.

Lemma filter_id {A : Type} (f : A -> bool) (l : list A) :
  (forall x, In x l -> f x = true) -> filter f l = l.
Proof.
  induction l as [|x l IH]; intros H; simpl; [reflexivity|].
  rewrite (H x (or_introl eq_refl)), IH; [reflexivity|].
  intros y Hy. apply H. now right.
Qed.

(** The loop of [chunk_text] appends the non-empty slices in order. *)
Lemma fold_chunk_step (self : t) (text : string) (l : list Z) (acc : list string) :
  fold_left (chunk_step self text) l acc
  = (acc ++ filter truthy
        (map (fun i => slice text (Some i) (Some (i + chunk_size self))) l))%list.
Proof.
  revert acc; induction l as [|i l IH]; intros acc; simpl.
  - now rewrite app_nil_r.
  - rewrite IH. unfold chunk_step. destruct (truthy _); simpl.
    + now rewrite <- app_assoc.
    + reflexivity.
Qed.

(** Windows of width [zn] taken every [sn] characters of a list. *)
Section Windows.
Context {A : Type}.
Variables (l : list A) (sn zn on : nat).
Hypothesis Hwidth : zn = (sn + on)%nat.
Hypothesis Hstep : (0 < sn)%nat.

Lemma window_nonempty (k : nat) :
  (k * sn < List.length l)%nat -> nonempty (window l sn zn k) = true.
Proof.
  intros Hk. unfold window.
  assert (Hlen : (0 < List.length (firstn zn (skipn (k * sn) l)))%nat).
  { rewrite length_firstn, length_skipn. lia. }
  destruct (firstn zn (skipn (k * sn) l)); [simpl in Hlen; lia | reflexivity].
Qed.

(** Gluing the first window and the tails of the next [m] gives a prefix. *)
Lemma window_glue (m : nat) :
  (window l sn zn 0 ++ List.concat (map (fun k => skipn on (window l sn zn k)) (seq 1 m)))%list
  = firstn (zn + m * sn) l.
Proof.
  induction m as [|m IH].
  - simpl. rewrite app_nil_r. unfold window. simpl. now rewrite Nat.add_0_r.
  - rewrite seq_S, map_app, concat_app, app_assoc, IH. simpl.
    rewrite app_nil_r. unfold window.
    rewrite skipn_firstn_comm, skipn_skipn.
    replace (zn - on)%nat with sn by lia.
    replace (on + S m * sn)%nat with (zn + m * sn)%nat by lia.
    rewrite <- firstn_plus. f_equal. lia.
Qed.
End Windows.

(** With a valid configuration the result is the list of all windows. *)
Lemma chunk_text_windows (self : t) (text : string) :
  chunk_overlap self < chunk_size self -> 0 <= chunk_overlap self ->
  chunk_text self text
  = Ok (map (fun k => slice text
                        (Some (Z.of_nat k * (chunk_size self - chunk_overlap self)))
                        (Some (Z.of_nat k * (chunk_size self - chunk_overlap self)
                               + chunk_size self)))
            (seq 0 (Z.to_nat (ceil_div (len text)
                                (chunk_size self - chunk_overlap self))))).
Proof.
  intros Hlt Hov. unfold chunk_text.
  set (step := chunk_size self - chunk_overlap self).
  assert (Hstep : 0 < step) by (unfold step; lia).
  destruct text as [|c text'] eqn:Etext.
  - simpl. unfold ceil_div, len. simpl.
    rewrite Z.div_small by lia. reflexivity.
  - rewrite <- Etext. replace (truthy text) with true by (now subst).
    simpl. unfold range.
    destruct (Z.eqb_spec step 0) as [|_]; [lia|]. simpl.
    assert (Hpos : 0 < len text) by (subst; unfold len; simpl; lia).
    assert (Hn : range_length 0 (len text) step = ceil_div (len text) step).
    { unfold range_length, ceil_div.
      destruct (Z.ltb_spec 0 step); [|lia].
      destruct (Z.ltb_spec 0 (len text)); [|lia].
      replace (len text + step - 1) with (len text - 0 - 1 + 1 * step) by lia.
      now rewrite Z.div_add by lia. }
    rewrite Hn, fold_chunk_step, map_map. simpl.
    f_equal. rewrite filter_id; [reflexivity|].
    intros x Hx. apply in_map_iff in Hx. destruct Hx as [k [<- Hk]].
    apply in_seq in Hk.
    pose proof (ceil_div_spec (len text) step Hstep) as Hc.
    assert (Hkz : Z.of_nat k * step < len text) by nia.
    rewrite truthy_chars, chars_slice by lia.
    replace (Z.of_nat k * step + chunk_size self - Z.of_nat k * step)
      with (chunk_size self) by lia.
    rewrite Z2Nat.inj_mul, Nat2Z.id by lia.
    apply (window_nonempty (chars text) (Z.to_nat step) (Z.to_nat (chunk_size self))
             (Z.to_nat (chunk_overlap self))).
    + unfold step. lia.
    + lia.
    + rewrite len_chars in Hkz. nia.
Qed.

(** Whatever the configuration, a returned chunk is never empty. *)
Lemma chunk_text_truthy (self : t) (text : string) (chunks : list string) :
  chunk_text self text = Ok chunks -> Forall (fun c => c <> "") chunks.
Proof.
  unfold chunk_text. destruct (truthy text); simpl.
  - destruct (range _ _ _) as [starts|e]; simpl; [|discriminate].
    intros H; injection H as <-. rewrite fold_chunk_step. simpl.
    apply Forall_forall. intros c Hc. apply filter_In in Hc.
    now apply truthy_true_iff.
  - intros H; injection H as <-. constructor.
Qed.

Lemma chars_chunk (text : string) (step size : Z) (k : nat) :
  0 < step -> 0 <= size ->
  chars (slice text (Some (Z.of_nat k * step)) (Some (Z.of_nat k * step + size)))
  = window (chars text) (Z.to_nat step) (Z.to_nat size) k.
Proof.
  intros Hs Hz. rewrite chars_slice by nia.
  replace (Z.of_nat k * step + size - Z.of_nat k * step) with size by lia.
  rewrite Z2Nat.inj_mul, Nat2Z.id by lia. reflexivity.
Qed.

(** C2. For every text and every configuration with
    [chunk_size > chunk_overlap >= 0], [chunk_text] returns a list of chunks
    none of which is empty, whose length is the ceiling of
    [len(text) / (chunk_size - chunk_overlap)] (0 for the empty text), and
    from which the text is rebuilt exactly by appending to the first chunk
    every later chunk without its first [chunk_overlap] characters. *)
Theorem chunk_text_reconstructs (self : t) (text : string) :
  chunk_overlap self < chunk_size self -> 0 <= chunk_overlap self ->
  exists chunks,
    chunk_text self text = Ok chunks
    /\ Forall (fun c => c <> "") chunks
    /\ Z.of_nat (List.length chunks)
       = ceil_div (len text) (chunk_size self - chunk_overlap self)
    /\ reassemble (chunk_overlap self) chunks = text.
Proof.
  intros Hlt Hov.
  pose proof (chunk_text_windows self text Hlt Hov) as Hw.
  set (step := chunk_size self - chunk_overlap self) in *.
  assert (Hstep : 0 < step) by (unfold step; lia).
  pose proof (ceil_div_spec (len text) step Hstep) as Hc.
  assert (Hlen : 0 <= len text) by (unfold len; lia).
  assert (Hn : 0 <= ceil_div (len text) step) by nia.
  eexists. split; [exact Hw|]. split; [|split].
  - exact (chunk_text_truthy self text _ Hw).
  - rewrite length_map, length_seq. now apply Z2Nat.id.
  - apply chars_inj.
    destruct (Z.to_nat (ceil_div (len text) step)) as [|m] eqn:En.
    + simpl. assert (H0 : len text = 0) by nia.
      rewrite len_chars in H0. destruct (chars text); [reflexivity|simpl in H0; lia].
    + rewrite <- cons_seq, map_cons. unfold reassemble.
      rewrite chars_append, chars_concat, !map_map.
      rewrite (chars_chunk text step (chunk_size self) 0) by lia.
      rewrite (map_ext _
                 (fun k => skipn (Z.to_nat (chunk_overlap self))
                             (window (chars text) (Z.to_nat step)
                                (Z.to_nat (chunk_size self)) k))).
      * rewrite (window_glue (chars text) (Z.to_nat step)
                   (Z.to_nat (chunk_size self)) (Z.to_nat (chunk_overlap self)))
          by (unfold step; lia).
        apply firstn_all2.
        assert (Hcd : ceil_div (len text) step = Z.of_nat (S m)) by lia.
        rewrite Hcd, len_chars in Hc.
        apply Nat2Z.inj_le.
        rewrite Nat2Z.inj_add, Nat2Z.inj_mul, !Z2Nat.id by lia.
        unfold step in *. nia.
      * intros k. rewrite chars_slice_from by lia.
        now rewrite chars_chunk by lia.
Qed.

(** The theorem at the fixture of the specification: size 5, overlap 1. *)
Lemma chunk_text_reconstructs_witness :
  exists chunks,
    chunk_text (mkT "k" "gemini-1.5-pro" "/tmp" [] 5 1) "hello world" = Ok chunks
    /\ Forall (fun c => c <> "") chunks
    /\ Z.of_nat (List.length chunks) = ceil_div (len "hello world") (5 - 1)
    /\ reassemble 1 chunks = "hello world".
Proof.
  apply (chunk_text_reconstructs (mkT "k" "gemini-1.5-pro" "/tmp" [] 5 1) "hello world");
    simpl; lia.
Defined.

(** C3. With chunk size 5 and overlap 1 the text "hello world" is split into
    exactly "hello", "o wor", "rld", in that order. *)
Theorem chunk_text_hello_world (key mdl tmp : string) (docs : dict Document) :
  chunk_text (mkT key mdl tmp docs 5 1) "hello world"
  = Ok ["hello"; "o wor"; "rld"].
Proof. reflexivity. Qed.

(** C4, as the code behaves.  [chunk_text] does not check its configuration.
    For a configuration with [chunk_size <= chunk_overlap] or
    [chunk_overlap < 0] it raises only when the two are equal and the text is
    not empty, and then the error is the zero-step [ValueError] of [range];
    in every other case it returns a list without any error, which is empty
    whenever [chunk_size <= chunk_overlap].  Being a total function it never
    loops. *)
Theorem chunk_text_invalid_configuration (self : t) (text : string) :
  chunk_size self <= chunk_overlap self \/ chunk_overlap self < 0 ->
  match chunk_text self text with
  | Raise e =>
      e = zero_step_error /\ chunk_size self = chunk_overlap self /\ text <> ""
  | Ok chunks =>
      (chunk_size self = chunk_overlap self -> text = "")
      /\ (chunk_size self <= chunk_overlap self -> chunks = [])
  end.
Proof.
  intros _. unfold chunk_text. destruct text as [|c text']; simpl.
  - split; reflexivity.
  - unfold range.
    destruct (Z.eqb_spec (chunk_size self - chunk_overlap self) 0) as [E|E]; simpl.
    + repeat split; [lia | discriminate].
    + split; [intros Heq; exfalso; lia|]. intros Hle. unfold range_length.
      destruct (Z.ltb_spec 0 (chunk_size self - chunk_overlap self)); [lia|].
      match goal with |- context [?a <? 0] => destruct (Z.ltb_spec a 0) end;
        [unfold len in *; lia | reflexivity].
Qed.

Lemma chunk_text_invalid_configuration_witness :
  match chunk_text (mkT "k" "gemini-1.5-pro" "/tmp" [] 5 5) "hello world" with
  | Raise e => e = zero_step_error /\ 5 = 5 /\ "hello world" <> ""
  | Ok chunks => (5 = 5 -> "hello world" = "") /\ (5 <= 5 -> chunks = [])
  end.
Proof.
  apply (chunk_text_invalid_configuration
           (mkT "k" "gemini-1.5-pro" "/tmp" [] 5 5) "hello world").
  left. simpl. lia.
Defined.

(** C4 as stated fails: with size 5 and overlap 10, and with size 5 and
    overlap -1, [chunk_text] returns a list and signals nothing. *)
Lemma chunk_text_signals_no_error :
  ~ (forall (self : t) (text : string),
        chunk_size self <= chunk_overlap self \/ chunk_overlap self < 0 ->
        exists e, chunk_text self text = Raise e)
  /\ chunk_text (mkT "k" "gemini-1.5-pro" "/tmp" [] 5 10) "hello world" = Ok []
  /\ chunk_text (mkT "k" "gemini-1.5-pro" "/tmp" [] 5 (-1)) "hello world"
     = Ok ["hello"; "world"].
Proof.
  split; [|split; reflexivity].
  intros H.
  destruct (H (mkT "k" "gemini-1.5-pro" "/tmp" [] 5 10) "hello world") as [e He].
  - left. simpl. lia.
  - discriminate He.
Qed.

End ChunkerProps.

(** ** The document store *)

Module StoreProps.
Import PyFacts SimpleDocRetrieval Chunking Session StoreSamples ChunkerProps.

Section Dict.
Context {V : Type}.
Implicit Types (d : dict V) (k : string) (v : V).

Lemma dict_get_set k v d : dict_get k (dict_set k v d) = Some v.
Proof.
  induction d as [|[k' v'] d IH]; simpl.
  - now rewrite String.eqb_refl.
  - destruct (String.eqb_spec k' k) as [->|Hne]; simpl.
    + now rewrite String.eqb_refl.
    + destruct (String.eqb_spec k' k); [contradiction | exact IH].
Qed.

Lemma dict_set_length_present k v d :
  dict_mem k d = true -> List.length (dict_set k v d) = List.length d.
Proof.
  unfold dict_mem. induction d as [|[k' v'] d IH]; simpl; [discriminate|].
  destruct (String.eqb k' k); simpl; [reflexivity|].
  intros H. now rewrite IH.
Qed.

Lemma dict_set_same k v d : dict_get k d = Some v -> dict_set k v d = d.
Proof.
  induction d as [|[k' v'] d IH]; simpl; [discriminate|].
  destruct (String.eqb_spec k' k) as [->|Hne].
  - intros H; injection H as ->. reflexivity.
  - intros H. now rewrite IH.
Qed.

Lemma Forall_dict_set (P : string * V -> Prop) k v d :
  Forall P d -> P (k, v) -> Forall P (dict_set k v d).
Proof.
  intros Hd Hkv. induction Hd as [|[k' v'] d Hx Hd IH]; simpl.
  - now constructor.
  - destruct (String.eqb k' k); constructor; assumption.
Qed.
End Dict.

Lemma set_documents_same (self : t) : set_documents self (documents self) = self.
Proof. now destruct self. Qed.

(** [add_document] unfolded along the three ways it can end. *)
Lemma add_document_cases (env : Env) (self : t) (file_path : string) :
  (truthy_opt (extract_text_from_file env file_path) = false
   /\ add_document env self file_path = (false, self, []))
  \/ (exists text e,
        extract_text_from_file env file_path = Some text /\ text <> ""
        /\ chunk_text self text = Raise e
        /\ add_document env self file_path = (false, self, [Chunked text]))
  \/ (exists text cs,
        extract_text_from_file env file_path = Some text /\ text <> ""
        /\ chunk_text self text = Ok cs
        /\ add_document env self file_path
           = (true,
              set_documents self
                (dict_set (basename file_path)
                   (mkDocument file_path cs text) (documents self)),
              [Chunked text])).
Proof.
  unfold add_document.
  destruct (extract_text_from_file env file_path) as [text|] eqn:Ex; simpl.
  - destruct (truthy text) eqn:Ht; simpl.
    + apply truthy_true_iff in Ht.
      destruct (chunk_text self text) as [cs|e] eqn:Ec.
      * right; right. exists text, cs. auto.
      * right; left. exists text, e. auto.
    + left. auto.
  - left. auto.
Qed.

Lemma chunk_text_frame (self : t) (d : dict Document) (text : string) :
  chunk_text (set_documents self d) text = chunk_text self text.
Proof. reflexivity. Qed.

Lemma store_ok_step (self : t) (o : op) : store_ok self -> store_ok (step self o).
Proof.
  intros (Hs & Ho & Hd). destruct o as [env file_path | env question |]; simpl.
  - destruct (add_document_cases env self file_path)
      as [[_ E] | [(text & e & _ & _ & _ & E) | (text & cs & Ex & Hne & Hc & E)]];
      rewrite E; unfold after; simpl; try (repeat split; assumption).
    repeat split; try assumption.
    apply Forall_dict_set.
    + eapply Forall_impl; [|exact Hd]. intros [n d] H. exact H.
    + simpl. split; [exact Hne | exact Hc].
  - repeat split; assumption.
  - repeat split; try assumption. constructor.
Qed.

Lemma store_ok_run (tmp key : string) (ops : list op) : store_ok (run tmp key ops).
Proof.
  unfold run.
  assert (H0 : store_ok (init tmp key)) by (repeat split; constructor).
  revert H0. generalize (init tmp key).
  induction ops as [|o ops IH]; intros self H; simpl; [exact H|].
  apply IH. now apply store_ok_step.
Qed.

Lemma in_documents_ok (tmp key : string) (ops : list op) (n : string) (d : Document) :
  In (n, d) (documents (run tmp key ops)) ->
  full_text d <> ""
  /\ chunk_text (run tmp key ops) (full_text d) = Ok (chunks d)
  /\ chunk_size (run tmp key ops) = 1000 /\ chunk_overlap (run tmp key ops) = 200.
Proof.
  intros Hin. destruct (store_ok_run tmp key ops) as (Hs & Ho & Hd).
  rewrite Forall_forall in Hd. destruct (Hd _ Hin) as [Hne Hc]. auto.
Qed.

(** C1, as the code behaves.  When a document named [basename file_path] is
    already present, [add_document] does not reject the file: it returns
    success exactly when the file yields a non-empty text that the chunker
    accepts, and then the entry for that name holds the Document built from
    this file (its path, chunks and full text), in place, the number of
    documents being the same; it returns failure otherwise, and then the
    object is unchanged.  When the entry already held that same Document, the
    object after the call equals the object before, so the chunk count for
    the name is the same. *)
Theorem add_document_existing_name (env : Env) (self : t) (file_path : string) :
  dict_mem (basename file_path) (documents self) = true ->
  let r := add_document env self file_path in
  List.length (documents (after r)) = List.length (documents self)
  /\ (returned r = false -> after r = self)
  /\ (returned r = true ->
      exists text cs,
        extract_text_from_file env file_path = Some text /\ text <> ""
        /\ chunk_text self text = Ok cs
        /\ dict_get (basename file_path) (documents (after r))
           = Some (mkDocument file_path cs text)
        /\ (dict_get (basename file_path) (documents self)
            = Some (mkDocument file_path cs text) -> after r = self))
  /\ (forall text cs,
        extract_text_from_file env file_path = Some text -> text <> "" ->
        chunk_text self text = Ok cs -> returned r = true).
Proof.
  intros Hmem r. subst r.
  destruct (add_document_cases env self file_path)
    as [[Hf E] | [(text & e & Ex & Hne & Hc & E) | (text & cs & Ex & Hne & Hc & E)]];
    rewrite E; unfold returned, after; simpl.
  - repeat split; try reflexivity; try discriminate.
    intros text cs Ex Hne _. rewrite Ex in Hf. simpl in Hf.
    apply truthy_true_iff in Hne. congruence.
  - repeat split; try reflexivity; try discriminate.
    intros text' cs Ex' _ Hc'. congruence.
  - split; [now apply dict_set_length_present|].
    split; [discriminate|]. split; [|reflexivity].
    intros _. exists text, cs. repeat split; try assumption.
    + apply dict_get_set.
    + intros Hsame. rewrite (dict_set_same _ _ _ Hsame).
      apply set_documents_same.
Qed.

Lemma add_document_existing_name_witness :
  let r := add_document sample_env sample_store "/uploads/a.txt" in
  List.length (documents (after r)) = List.length (documents sample_store)
  /\ (returned r = false -> after r = sample_store)
  /\ (returned r = true ->
      exists text cs,
        extract_text_from_file sample_env "/uploads/a.txt" = Some text /\ text <> ""
        /\ chunk_text sample_store text = Ok cs
        /\ dict_get (basename "/uploads/a.txt") (documents (after r))
           = Some (mkDocument "/uploads/a.txt" cs text)
        /\ (dict_get (basename "/uploads/a.txt") (documents sample_store)
            = Some (mkDocument "/uploads/a.txt" cs text) -> after r = sample_store))
  /\ (forall text cs,
        extract_text_from_file sample_env "/uploads/a.txt" = Some text -> text <> "" ->
        chunk_text sample_store text = Ok cs -> returned r = true).
Proof.
  apply (add_document_existing_name sample_env sample_store "/uploads/a.txt").
  vm_compute. reflexivity.
Defined.

(** Adding the same file again, unchanged, leaves the object as it was. *)
Lemma add_document_twice (env : Env) (self : t) (file_path : string) :
  returned (add_document env self file_path) = true ->
  add_document env (after (add_document env self file_path)) file_path
  = (true, after (add_document env self file_path),
     emitted (add_document env self file_path)).
Proof.
  destruct (add_document_cases env self file_path)
    as [[_ E] | [(text & e & _ & _ & _ & E) | (text & cs & Ex & Hne & Hc & E)]];
    rewrite E; unfold returned, after, emitted; simpl; try discriminate.
  intros _. set (self' := set_documents self _).
  destruct (add_document_cases env self' file_path)
    as [[Hf E'] | [(text' & e & Ex' & _ & Hc' & _) | (text' & cs' & Ex' & _ & Hc' & E')]].
  - rewrite Ex in Hf. simpl in Hf. apply truthy_true_iff in Hne. congruence.
  - unfold self' in Hc'. rewrite chunk_text_frame in Hc'. congruence.
  - unfold self' in Hc'. rewrite chunk_text_frame in Hc'.
    assert (text' = text) by congruence. subst text'.
    assert (cs' = cs) by congruence. subst cs'.
    rewrite E'. f_equal. f_equal. unfold self' at 2. simpl.
    rewrite dict_set_same by apply dict_get_set.
    unfold self', set_documents. simpl. reflexivity.
Qed.

(** C1 as stated fails: [a.txt] is present, a second file of that name is
    accepted, its Document replaces the stored one and the chunk count for
    the name goes from 1 to 2. *)
Lemma add_document_overwrites :
  ~ (forall (env : Env) (self : t) (file_path : string),
        dict_mem (basename file_path) (documents self) = true ->
        returned (add_document env self file_path) = false
        /\ dict_get (basename file_path)
             (documents (after (add_document env self file_path)))
           = dict_get (basename file_path) (documents self))
  /\ dict_mem "a.txt" (documents sample_store) = true
  /\ basename "/uploads/a.txt" = "a.txt"
  /\ returned (add_document sample_env sample_store "/uploads/a.txt") = true
  /\ chunk_count sample_store "a.txt" = Some 1%nat
  /\ chunk_count (after (add_document sample_env sample_store "/uploads/a.txt")) "a.txt"
     = Some 2%nat.
Proof.
  split; [|repeat split; vm_compute; reflexivity].
  intros H.
  destruct (H sample_env sample_store "/uploads/a.txt") as [Hr _].
  - vm_compute. reflexivity.
  - vm_compute in Hr. discriminate Hr.
Qed.

(** C5. When extraction yields an empty text (or none), [add_document]
    returns failure and the object is unchanged, so no Document is added and
    the number of documents is the same; and in no object a session can reach
    does a stored Document have an empty full text. *)
Theorem add_document_empty_text (env : Env) (self : t) (file_path : string) :
  truthy_opt (extract_text_from_file env file_path) = false ->
  add_document env self file_path = (false, self, [])
  /\ List.length (documents (after (add_document env self file_path)))
     = List.length (documents self)
  /\ (forall (tmp key : string) (ops : list op) (n : string) (d : Document),
        In (n, d) (documents (run tmp key ops)) -> full_text d <> "").
Proof.
  intros Hf.
  assert (E : add_document env self file_path = (false, self, [])).
  { unfold add_document. now rewrite Hf. }
  split; [exact E|]. split; [now rewrite E|].
  intros tmp key ops n d Hin. now apply (in_documents_ok tmp key ops n d).
Qed.

Lemma add_document_empty_text_witness :
  add_document sample_env sample_store "/tmp/x.txt" = (false, sample_store, [])
  /\ List.length (documents (after (add_document sample_env sample_store "/tmp/x.txt")))
     = List.length (documents sample_store)
  /\ (forall (tmp key : string) (ops : list op) (n : string) (d : Document),
        In (n, d) (documents (run tmp key ops)) -> full_text d <> "").
Proof.
  apply (add_document_empty_text sample_env sample_store "/tmp/x.txt").
  vm_compute. reflexivity.
Defined.

(** C6. When the object holds no Document, [query] returns the fixed sentence
    "No documents have been added to the system." and sends no request to
    the generation model. *)
Theorem query_no_documents (env : Env) (self : t) (question : string) :
  documents self = [] ->
  query env self question = ("No documents have been added to the system.", []).
Proof.
  intros H. unfold query. rewrite H. reflexivity.
Qed.

Lemma query_no_documents_witness :
  query sample_env (init "/tmp" "key") "What is in the report?"
  = ("No documents have been added to the system.", []).
Proof.
  apply (query_no_documents sample_env (init "/tmp" "key") "What is in the report?").
  reflexivity.
Defined.

(** C10. [clear] returns true and leaves an object with no Document, on which
    [query] answers with the no-documents sentence without any request to the
    model; the API key, the model, the temporary directory and the two
    chunking parameters are what they were. *)
Theorem clear_resets_documents (env : Env) (self : t) (question : string) :
  fst (clear self) = true
  /\ documents (snd (clear self)) = []
  /\ List.length (documents (snd (clear self))) = 0%nat
  /\ query env (snd (clear self)) question
     = ("No documents have been added to the system.", [])
  /\ api_key (snd (clear self)) = api_key self
  /\ model (snd (clear self)) = model self
  /\ temp_dir (snd (clear self)) = temp_dir self
  /\ chunk_size (snd (clear self)) = chunk_size self
  /\ chunk_overlap (snd (clear self)) = chunk_overlap self.
Proof. repeat split. Qed.

End StoreProps.

(** ** The assembled context *)

Module ContextProps.
Import PyFacts SimpleDocRetrieval Chunking Session Assembly StoreSamples ChunkerProps StoreProps.

Lemma append_nil_l (a : string) : "" ++ a = a.
Proof. reflexivity. Qed.

Lemma append_document_prefix (context name : string) (d : Document) :
  append_document context name d = context ++ append_document "" name d.
Proof.
  unfold append_document. destruct (nonempty (chunks d)).
  - destruct (1 <? Z.of_nat (List.length (chunks d)));
      now rewrite ?append_assoc, ?append_nil_l.
  - now rewrite append_nil_r.
Qed.

Lemma build_context_blocks (docs : dict Document) :
  build_context docs
  = context_header ++ String.concat "" (map document_block docs).
Proof.
  unfold build_context. fold context_header. generalize context_header.
  induction docs as [|item docs IH]; intros context; cbn [fold_left map].
  - now rewrite append_nil_r.
  - rewrite IH, append_document_prefix, concat_cons, append_assoc. reflexivity.
Qed.

(** Under the parameters of the constructor a non-empty text has a chunk. *)
Lemma chunk_text_some_chunk (self : t) (text : string) (cs : list string) :
  chunk_size self = 1000 -> chunk_overlap self = 200 -> text <> "" ->
  chunk_text self text = Ok cs -> cs <> [].
Proof.
  intros Hs Ho Hne Hc.
  rewrite chunk_text_windows in Hc by lia. injection Hc as <-.
  rewrite Hs, Ho.
  pose proof (ceil_div_spec (len text) (1000 - 200) ltac:(lia)) as Hd.
  assert (Hpos : 0 < len text).
  { destruct text; [congruence | unfold len; simpl; lia]. }
  destruct (Z.to_nat (ceil_div (len text) (1000 - 200))) eqn:En; [lia|].
  rewrite <- cons_seq, map_cons. discriminate.
Qed.

(** The block of a document with at least one chunk. *)
Lemma document_block_shape (name first : string) (rest : list string) (d : Document) :
  chunks d = first :: rest ->
  document_block (name, d)
  = beginning_section name first ++
    match rest with
    | [] => ""
    | _ :: _ =>
        end_label ++ "..." ++ slice (last (chunks d) "") (Some (-500)) None ++ nl ++ nl
    end.
Proof.
  intros Hc. unfold document_block, append_document, beginning_section, end_label.
  cbn [fst snd]. rewrite Hc. cbn [nonempty nth].
  rewrite slice_to_substring by lia. change (Z.to_nat 500) with 500%nat.
  destruct rest as [|c rest].
  - cbn [List.length]. change (1 <? Z.of_nat 1) with false. cbn iota.
    now rewrite ?append_assoc, ?append_nil_l, ?append_nil_r.
  - replace (1 <? Z.of_nat (List.length (first :: c :: rest))) with true.
    + now rewrite ?append_assoc, ?append_nil_l.
    + symmetry. apply Z.ltb_lt. cbn [List.length]. lia.
Qed.

(** C7, as the code behaves.  For every store, the context [query] assembles
    is the header followed by one block per stored Document, in order.  The
    block of a Document that has at least one chunk starts with its name line
    and the beginning excerpt, which is the first chunk cut to 500
    characters; what follows starts with the "Excerpt from end" label if and
    only if the Document has more than one chunk, and is empty when it has
    exactly one.  A Document without any chunk contributes nothing; under the
    parameters the constructor sets every stored Document has a chunk. *)
Theorem context_blocks (docs : dict Document) :
  build_context docs
  = context_header ++ String.concat "" (map document_block docs)
  /\ (forall (n : string) (d : Document),
        In (n, d) docs ->
        (chunks d = [] -> document_block (n, d) = "")
        /\ (forall first rest,
              chunks d = first :: rest ->
              exists tail,
                document_block (n, d) = beginning_section n first ++ tail
                /\ (startswith tail end_label = true
                    <-> (1 < List.length (chunks d))%nat)
                /\ (List.length (chunks d) = 1%nat -> tail = "")))
  /\ (forall (tmp key : string) (ops : list op) (n : string) (d : Document),
        In (n, d) (documents (run tmp key ops)) -> chunks d <> []).
Proof.
  split; [apply build_context_blocks|]. split.
  - intros n d _. split.
    + intros Hc. unfold document_block, append_document. cbn [fst snd].
      now rewrite Hc.
    + intros first rest Ech.
      pose proof (document_block_shape n first rest d Ech) as Hb.
      rewrite Ech in Hb. rewrite Ech.
      eexists. split; [exact Hb|].
      destruct rest as [|c rest]; cbn [List.length].
      * split; [|reflexivity]. split; [discriminate | lia].
      * split; [|discriminate]. split; [lia|].
        intros _. apply startswith_append.
  - intros tmp key ops n d Hin.
    destruct (in_documents_ok tmp key ops n d Hin) as (Hne & Hc & Hs & Ho).
    exact (chunk_text_some_chunk _ _ _ Hs Ho Hne Hc).
Qed.

(** A session with one short document: one chunk, no end excerpt. *)
Lemma context_blocks_witness :
  build_context (documents sample_store)
  = context_header ++ beginning_section "a.txt" "first version"
  /\ query sample_env sample_store "What changed?"
     = ("answer",
        [Generated "gemini-1.5-pro"
           (build_prompt
              (context_header ++ beginning_section "a.txt" "first version")
              "What changed?")]).
Proof.
  destruct (context_blocks (documents sample_store)) as [Hctx _].
  assert (E : build_context (documents sample_store)
              = context_header ++ beginning_section "a.txt" "first version").
  { rewrite Hctx. vm_compute. reflexivity. }
  split; [exact E|].
  unfold query. rewrite E. vm_compute. reflexivity.
Defined.

(** C7 as stated fails: with chunk size 5 and overlap 10 [add_document]
    accepts [a.txt] and stores it without any chunk; this Document has no
    block, so no beginning excerpt, and the context is the header alone. *)
Lemma chunkless_document_no_block :
  ~ (forall (self : t) (n : string) (d : Document),
        In (n, d) (documents self) ->
        exists first rest tail,
          chunks d = first :: rest
          /\ document_block (n, d) = beginning_section n first ++ tail
          /\ (startswith tail end_label = true <-> (1 < List.length (chunks d))%nat))
  /\ documents misconfigured_store
     = [("a.txt", mkDocument "/tmp/a.txt" [] "first version")]
  /\ document_block ("a.txt", mkDocument "/tmp/a.txt" [] "first version") = ""
  /\ build_context (documents misconfigured_store) = context_header.
Proof.
  split; [|repeat split; reflexivity].
  intros H.
  destruct (H misconfigured_store "a.txt"
              (mkDocument "/tmp/a.txt" [] "first version"))
    as (first & rest & tail & Hc & _).
  - left. reflexivity.
  - discriminate Hc.
Qed.

End ContextProps.

(** ** Unsupported file extensions *)

Module ExtensionProps.
Import PyFacts SimpleDocRetrieval Session Ingestion StoreSamples StoreProps.
Import FileProcessor.

Lemma lower_char_dot (c : ascii) : lower_char c = "."%char -> c = "."%char.
Proof.
  destruct c as [[] [] [] [] [] [] [] []]; vm_compute; intros H;
    first [reflexivity | discriminate H].
Qed.

(** A lower-cased extension [.x...] comes from a suffix with a single dot. *)
Lemma lstrip_lower_dotted (e : string) (x : ascii) (r : string) :
  lower e = String "." (String x r) -> x <> "."%char ->
  lower (lstrip "." e) = String x r.
Proof.
  destruct e as [|c e]; [discriminate|]. simpl. intros H Hx.
  injection H as Hc He. apply lower_char_dot in Hc. subst c. simpl.
  destruct e as [|c' e']; [discriminate He|].
  simpl in He. injection He as Hc' He'. simpl.
  destruct (Ascii.eqb_spec c' ".") as [->|Hne].
  - exfalso. apply Hx. rewrite <- Hc'. reflexivity.
  - simpl. now rewrite Hc', He'.
Qed.

(** The keys of the dispatch table are the supported extensions. *)
Lemma dict_get_unsupported (h : Handlers) (x : string) :
  mem_str x supported_set = false ->
  dict_get x (supported_extensions (FileProcessor.init h)) = None.
Proof.
  intros H. unfold mem_str, supported_set in H. cbn [existsb] in H.
  repeat (apply orb_false_iff in H; destruct H as [?H H]).
  cbn [FileProcessor.init supported_extensions dict_get].
  repeat match goal with
         | Hk : String.eqb x ?k = false |- _ =>
             rewrite (String.eqb_sym k x), Hk; clear Hk
         end.
  reflexivity.
Qed.

Lemma extract_unsupported (env : Env) (file_path : string) :
  mem_str (extension file_path) supported_set = false ->
  extract_text_from_file env file_path = None.
Proof.
  unfold extension, extract_text_from_file. intros H.
  destruct (String.eqb_spec (lower (snd (splitext file_path))) ".pdf") as [E|_].
  { apply lstrip_lower_dotted in E; [|discriminate]. rewrite E in H. discriminate H. }
  destruct (String.eqb_spec (lower (snd (splitext file_path))) ".txt") as [E|_].
  { apply lstrip_lower_dotted in E; [|discriminate]. rewrite E in H. discriminate H. }
  destruct (String.eqb_spec (lower (snd (splitext file_path))) ".docx") as [E|_].
  { apply lstrip_lower_dotted in E; [|discriminate]. rewrite E in H. discriminate H. }
  reflexivity.
Qed.

(** C8. A path whose extension is outside the supported set is rejected
    before anything is chunked: [extract_text_from_file] returns [None],
    [process_file] returns the record with [success] false and the error
    "Unsupported file type: <extension>", and [add_document] returns failure
    without a request to the chunker, leaving the object, so the number of
    documents, unchanged. *)
Theorem unsupported_extension_rejected
  (h : Handlers) (env : Env) (self : SimpleDocRetrieval.t) (file_path : string) :
  mem_str (extension file_path) supported_set = false ->
  extract_text_from_file env file_path = None
  /\ process_file (FileProcessor.init h) file_path
     = [ ("success", PBool false);
         ("error", PStr ("Unsupported file type: " ++ extension file_path));
         ("file_path", PStr file_path) ]
  /\ add_document env self file_path = (false, self, [])
  /\ List.length (documents (after (add_document env self file_path)))
     = List.length (documents self).
Proof.
  intros H.
  pose proof (extract_unsupported env file_path H) as Ex.
  assert (E : add_document env self file_path = (false, self, [])).
  { unfold add_document. now rewrite Ex. }
  split; [exact Ex|]. split; [|split; [exact E | now rewrite E]].
  unfold process_file. fold (extension file_path).
  now rewrite (dict_get_unsupported h _ H).
Qed.

Lemma unsupported_extension_rejected_witness :
  extract_text_from_file sample_env "/tmp/Setup.EXE" = None
  /\ process_file (FileProcessor.init no_handlers) "/tmp/Setup.EXE"
     = [ ("success", PBool false);
         ("error", PStr "Unsupported file type: exe");
         ("file_path", PStr "/tmp/Setup.EXE") ]
  /\ add_document sample_env sample_store "/tmp/Setup.EXE" = (false, sample_store, [])
  /\ List.length (documents (after (add_document sample_env sample_store "/tmp/Setup.EXE")))
     = List.length (documents sample_store).
Proof.
  apply (unsupported_extension_rejected no_handlers sample_env sample_store "/tmp/Setup.EXE").
  vm_compute. reflexivity.
Defined.

End ExtensionProps.

(** ** The multimodal request *)

Module GeminiProps.
Import PyFacts GeminiHandler Multimodal MediaSamples.

Lemma build_prompt_text_carries (context text_prompt : string) :
  exists pre post,
    build_prompt_text context text_prompt = pre ++ asked text_prompt ++ post.
Proof.
  unfold build_prompt_text. fold (asked text_prompt).
  destruct (truthy context).
  - exists (nl ++
            indent16 ++ "Here is some relevant context information: " ++ nl ++
            indent16 ++ context ++ nl ++
            indent16 ++ nl ++
            indent16 ++ "Based on this context and the provided media, please answer the following:" ++ nl ++
            indent16), (nl ++ indent16).
    now rewrite !append_assoc.
  - exists "", "". simpl. now rewrite append_nil_r.
Qed.

(** C9, as the code behaves.  For a content type outside image/, audio/ and
    video/ no request reaches the model, and the answer is the fixed string
    "Unsupported media type." whenever the media file could be read and the
    context query did not raise.  For a content type inside them, under the
    same two conditions, exactly one request reaches the multimodal model: the
    prompt text, which contains what the user asked, followed by the bytes of
    the file with that content type; the answer is the text of the response,
    or the error string when the model raises.  When the file cannot be read,
    or when it is read and the context query raises, no request is sent and
    the answer is "Error processing multimodal query: " followed by the text
    of the exception, whatever the content type. *)
Theorem multimodal_dispatch
  (env : Env) (self : t) (text_prompt media_path : string) (rag : rag_manager) :
  let content_type := content_type_of env media_path in
  let r := generate_multimodal_response env self text_prompt media_path rag in
  (supported_category content_type = false ->
   snd r = []
   /\ (forall media_bytes context,
         read_bytes env media_path = Ok media_bytes ->
         rag_context rag text_prompt = Ok context ->
         fst r = "Unsupported media type."))
  /\ (supported_category content_type = true ->
      forall media_bytes context,
        read_bytes env media_path = Ok media_bytes ->
        rag_context rag text_prompt = Ok context ->
        snd r = [Generated (multimodal_model self)
                   [Text (build_prompt_text context text_prompt);
                    Blob content_type media_bytes]]
        /\ (exists pre post,
              build_prompt_text context text_prompt = pre ++ asked text_prompt ++ post)
        /\ fst r
           = match generate_content env (multimodal_model self)
                     [Text (build_prompt_text context text_prompt);
                      Blob content_type media_bytes] with
             | Ok text => text
             | Raise e => "Error processing multimodal query: " ++ exn_str e
             end)
  /\ (forall e,
        read_bytes env media_path = Raise e ->
        r = ("Error processing multimodal query: " ++ exn_str e, []))
  /\ (forall media_bytes e,
        read_bytes env media_path = Ok media_bytes ->
        rag_context rag text_prompt = Raise e ->
        r = ("Error processing multimodal query: " ++ exn_str e, [])).
Proof.
  intros content_type r. subst r. unfold generate_multimodal_response.
  fold content_type. unfold supported_category.
  split; [|split; [|split]].
  - intros Hcat. apply orb_false_iff in Hcat. destruct Hcat as [Hcat Hv].
    apply orb_false_iff in Hcat. destruct Hcat as [Hi Ha].
    rewrite Hi, Ha, Hv. simpl.
    split.
    + destruct (read_bytes env media_path); [|reflexivity].
      destruct (rag_context rag text_prompt); reflexivity.
    + intros media_bytes context Hr Hc. rewrite Hr, Hc. reflexivity.
  - intros Hcat media_bytes context Hr Hc. rewrite Hr, Hc.
    split; [|split; [apply build_prompt_text_carries|]].
    + destruct (startswith content_type "image/").
      * destruct (generate_content _ _ _); reflexivity.
      * simpl in Hcat. rewrite Hcat.
        destruct (generate_content _ _ _); reflexivity.
    + destruct (startswith content_type "image/").
      * destruct (generate_content _ _ _); reflexivity.
      * simpl in Hcat. rewrite Hcat.
        destruct (generate_content _ _ _); reflexivity.
  - intros e Hr. rewrite Hr. reflexivity.
  - intros media_bytes e Hr Hc. rewrite Hr, Hc. reflexivity.
Qed.

Lemma multimodal_dispatch_witness :
  snd (generate_multimodal_response sample_media_env (init "key")
         "What is this?" "/tmp/Photo.PNG" None)
  = [Generated "gemini-1.5-pro-vision"
       [Text "What is this?"; Blob "image/png" [x89; x50; x4e; x47]]]
  /\ generate_multimodal_response sample_media_env (init "key")
       "Summarise" "notes.txt" None
     = ("Error processing multimodal query: [Errno 2] No such file or directory", [])
  /\ generate_multimodal_response sample_media_env (init "key")
       "What is this?" "/tmp/Photo.PNG" failing_rag
     = ("Error processing multimodal query: knowledge base unavailable", []).
Proof.
  split; [|split].
  - destruct (multimodal_dispatch sample_media_env (init "key")
                "What is this?" "/tmp/Photo.PNG" None) as (_ & H & _).
    destruct (H eq_refl [x89; x50; x4e; x47] "" eq_refl eq_refl) as [E _].
    exact E.
  - destruct (multimodal_dispatch sample_media_env (init "key")
                "Summarise" "notes.txt" None) as (_ & _ & H & _).
    exact (H (Exception "FileNotFoundError" "[Errno 2] No such file or directory")
             eq_refl).
  - destruct (multimodal_dispatch sample_media_env (init "key")
                "What is this?" "/tmp/Photo.PNG" failing_rag) as (_ & _ & _ & H).
    exact (H [x89; x50; x4e; x47]
             (Exception "ConnectionError" "knowledge base unavailable")
             eq_refl eq_refl).
Defined.

(** C9 as stated fails: [notes.txt] has the content type text/plain, which is
    not supported, yet the file cannot be read and the answer is the error
    message of the read, not "Unsupported media type.". *)
Lemma unreadable_media_error :
  ~ (forall (env : Env) (self : t) (text_prompt media_path : string) (rag : rag_manager),
        supported_category (content_type_of env media_path) = false ->
        fst (generate_multimodal_response env self text_prompt media_path rag)
        = "Unsupported media type.")
  /\ supported_category (content_type_of sample_media_env "notes.txt") = false
  /\ generate_multimodal_response sample_media_env (init "key")
       "Summarise" "notes.txt" None
     = ("Error processing multimodal query: [Errno 2] No such file or directory", []).
Proof.
  split; [|split; reflexivity].
  intros H.
  specialize (H sample_media_env (init "key") "Summarise" "notes.txt" None eq_refl).
  vm_compute in H. discriminate H.
Qed.

End GeminiProps.

(** ** More on the chunker *)

Module ChunkerMore.
Import PyFacts SimpleDocRetrieval Chunking ChunkerProps.

(** A slice is a contiguous piece of the string it is taken from. *)
Lemma slice_infix (s : string) (start stop : option Z) :
  exists pre post, s = pre ++ slice s start stop ++ post.
Proof.
  unfold slice.
  match goal with |- context [if ?c then _ else _] => destruct c end.
  - match goal with |- context [substring ?n ?m s] =>
      exists (string_of_list_ascii (firstn n (chars s))),
             (string_of_list_ascii (skipn m (skipn n (chars s))));
      apply chars_inj;
      rewrite !chars_append, chars_substring,
        !list_ascii_of_string_of_list_ascii, !firstn_skipn
    end.
    reflexivity.
  - exists "", s. reflexivity.
Qed.

Lemma range_from_zero_nonneg (stop step : Z) (starts : list Z) :
  0 <= stop -> range 0 stop step = Ok starts -> Forall (fun i => 0 <= i) starts.
Proof.
  intros Hstop. unfold range. destruct (step =? 0); [discriminate|].
  intros H; injection H as <-. apply Forall_forall. intros i Hi.
  apply in_map_iff in Hi. destruct Hi as [k [<- Hk]]. apply in_seq in Hk.
  unfold range_length in Hk.
  destruct (Z.ltb_spec 0 step); [nia|].
  destruct (Z.ltb_spec stop 0); [lia|]. simpl in Hk. lia.
Qed.

Lemma len_slice_window (s : string) (i size : Z) :
  0 <= i -> 0 <= size -> len (slice s (Some i) (Some (i + size))) <= size.
Proof.
  intros Hi Hs. rewrite len_chars, chars_slice by lia.
  rewrite length_firstn. lia.
Qed.

(** X1. Whatever the configuration, every chunk [chunk_text] returns is a
    non-empty contiguous piece of the text, and when [chunk_size] is not
    negative no chunk is longer than [chunk_size]. *)
Theorem chunk_text_pieces (self : t) (text : string) (cs : list string) :
  chunk_text self text = Ok cs ->
  Forall (fun c => c <> "" /\ exists pre post, text = pre ++ c ++ post) cs
  /\ (0 <= chunk_size self -> Forall (fun c => len c <= chunk_size self) cs).
Proof.
  unfold chunk_text. destruct (truthy text); simpl.
  - destruct (range 0 (len text) (chunk_size self - chunk_overlap self))
      as [starts|e] eqn:Er; simpl; [|discriminate].
    intros H; injection H as <-. rewrite fold_chunk_step. simpl.
    assert (Hlen : 0 <= len text) by (unfold len; lia).
    pose proof (range_from_zero_nonneg _ _ _ Hlen Er) as Hpos.
    rewrite Forall_forall in Hpos.
    split.
    + apply Forall_forall. intros c Hc. apply filter_In in Hc.
      destruct Hc as [Hc Ht]. apply in_map_iff in Hc. destruct Hc as [i [<- Hi]].
      split; [now apply truthy_true_iff | apply slice_infix].
    + intros Hsize. apply Forall_forall. intros c Hc. apply filter_In in Hc.
      destruct Hc as [Hc _]. apply in_map_iff in Hc. destruct Hc as [i [<- Hi]].
      apply len_slice_window; [now apply Hpos | exact Hsize].
  - intros H; injection H as <-. split; [constructor | intros _; constructor].
Qed.

Lemma chunk_text_pieces_witness :
  Forall (fun c => c <> "" /\ exists pre post, "hello world" = pre ++ c ++ post)
         ["hello"; "world"]
  /\ (0 <= 5 -> Forall (fun c => len c <= 5) ["hello"; "world"]).
Proof.
  apply (chunk_text_pieces (mkT "k" "gemini-1.5-pro" "/tmp" [] 5 (-1)) "hello world").
  reflexivity.
Defined.

Lemma nth_map_seq {B : Type} (f : nat -> B) (n k : nat) (d : B) :
  (k < n)%nat -> nth k (map f (seq 0 n)) d = f k.
Proof.
  intros Hk. rewrite (nth_indep _ d (f 0%nat)) by (now rewrite length_map, length_seq).
  rewrite map_nth, seq_nth by exact Hk. reflexivity.
Qed.

(** X2. With [chunk_size > chunk_overlap >= 0], each chunk after the first
    begins with what the chunk before it holds beyond its first
    [chunk_size - chunk_overlap] characters; this shared part has at most
    [chunk_overlap] characters, and exactly that many when the earlier chunk
    has the full [chunk_size]. *)
Theorem chunk_text_overlap (self : t) (text : string) (cs : list string) (k : nat) :
  chunk_overlap self < chunk_size self -> 0 <= chunk_overlap self ->
  chunk_text self text = Ok cs -> (S k < List.length cs)%nat ->
  let shared :=
    slice (nth k cs "") (Some (chunk_size self - chunk_overlap self)) None in
  (exists rest, nth (S k) cs "" = shared ++ rest)
  /\ len shared <= chunk_overlap self
  /\ (len (nth k cs "") = chunk_size self -> len shared = chunk_overlap self).
Proof.
  intros Hlt Hov Hc Hk.
  rewrite chunk_text_windows in Hc by assumption. injection Hc as <-.
  set (step := chunk_size self - chunk_overlap self) in *.
  assert (Hstep : 0 < step) by (unfold step; lia).
  rewrite length_map, length_seq in Hk. intros shared.
  assert (Ek : chars (nth k (map (fun k0 => slice text (Some (Z.of_nat k0 * step))
                (Some (Z.of_nat k0 * step + chunk_size self)))
                (seq 0 (Z.to_nat (ceil_div (len text) step)))) "")
               = window (chars text) (Z.to_nat step) (Z.to_nat (chunk_size self)) k).
  { rewrite nth_map_seq by lia. apply chars_chunk; lia. }
  assert (ESk : chars (nth (S k) (map (fun k0 => slice text (Some (Z.of_nat k0 * step))
                (Some (Z.of_nat k0 * step + chunk_size self)))
                (seq 0 (Z.to_nat (ceil_div (len text) step)))) "")
               = window (chars text) (Z.to_nat step) (Z.to_nat (chunk_size self)) (S k)).
  { rewrite nth_map_seq by lia. apply chars_chunk; lia. }
  assert (Es : chars shared
               = firstn (Z.to_nat (chunk_overlap self))
                   (skipn (S k * Z.to_nat step) (chars text))).
  { unfold shared. rewrite chars_slice_from by lia.
    etransitivity; [apply f_equal; exact Ek|]. unfold window.
    rewrite skipn_firstn_comm, skipn_skipn. f_equal; unfold step; lia. }
  split; [|split].
  - exists (string_of_list_ascii
              (firstn (Z.to_nat step)
                 (skipn (Z.to_nat (chunk_overlap self))
                    (skipn (S k * Z.to_nat step) (chars text))))).
    apply chars_inj.
    rewrite chars_append, list_ascii_of_string_of_list_ascii, ESk, Es.
    unfold window. rewrite <- firstn_plus. f_equal. unfold step. lia.
  - rewrite (len_chars shared), Es, length_firstn. lia.
  - intros Hfull. rewrite (len_chars (nth k _ "")), Ek in Hfull.
    rewrite (len_chars shared), Es. unfold window in Hfull.
    rewrite length_firstn, length_skipn in *. unfold step in *. lia.
Qed.

Lemma chunk_text_overlap_witness :
  let shared := slice "hello" (Some (5 - 1)) None in
  (exists rest, "o wor" = shared ++ rest)
  /\ len shared <= 1
  /\ (len "hello" = 5 -> len shared = 1).
Proof.
  apply (chunk_text_overlap (mkT "k" "gemini-1.5-pro" "/tmp" [] 5 1) "hello world"
           ["hello"; "o wor"; "rld"] 0); simpl; try lia. reflexivity.
Defined.

(** X3. With [chunk_size > chunk_overlap >= 0], a non-empty text comes back
    as the single chunk [[text]] exactly when it has at most
    [chunk_size - chunk_overlap] characters; a longer text that still fits in
    [chunk_size] already gives two chunks. *)
Theorem chunk_text_single (self : t) (text : string) :
  chunk_overlap self < chunk_size self -> 0 <= chunk_overlap self ->
  text <> "" ->
  (chunk_text self text = Ok [text]
   <-> len text <= chunk_size self - chunk_overlap self).
Proof.
  intros Hlt Hov Hne.
  rewrite chunk_text_windows by assumption.
  set (step := chunk_size self - chunk_overlap self) in *.
  assert (Hstep : 0 < step) by (unfold step; lia).
  pose proof (ceil_div_spec (len text) step Hstep) as Hc.
  assert (Hpos : 0 < len text).
  { destruct text; [congruence | unfold len; simpl; lia]. }
  split.
  - intros H. injection H as H.
    apply (f_equal (@List.length string)) in H.
    rewrite length_map, length_seq in H. simpl in H. nia.
  - intros Hle.
    assert (Hn : Z.to_nat (ceil_div (len text) step) = 1%nat) by nia.
    rewrite Hn. cbn [seq map]. f_equal. f_equal.
    apply chars_inj. rewrite chars_slice by lia.
    cbn [skipn Z.to_nat Z.of_nat Z.mul].
    apply firstn_all2. rewrite len_chars in Hle. unfold step in Hle. lia.
Qed.

Lemma chunk_text_single_witness :
  chunk_text (mkT "k" "gemini-1.5-pro" "/tmp" [] 5 1) "hell" = Ok ["hell"]
  <-> len "hell" <= 5 - 1.
Proof.
  apply (chunk_text_single (mkT "k" "gemini-1.5-pro" "/tmp" [] 5 1) "hell");
    simpl; try lia. discriminate.
Defined.

End ChunkerMore.

(** ** More on the document store *)

Module StoreMore.
Import PyFacts SimpleDocRetrieval Chunking Session Assembly StoreSamples Views.
Import ChunkerProps StoreProps ContextProps.

Section DictMore.
Context {V : Type}.
Implicit Types (d : dict V) (k : string) (v : V).

Lemma dict_get_set_other k k' v d :
  k <> k' -> dict_get k (dict_set k' v d) = dict_get k d.
Proof.
  intros Hne. induction d as [|[k0 v0] d IH]; simpl.
  - destruct (String.eqb_spec k' k); [congruence | reflexivity].
  - destruct (String.eqb_spec k0 k') as [->|Hk]; simpl.
    + destruct (String.eqb_spec k' k); [congruence|].
      destruct (String.eqb_spec k' k); [congruence | reflexivity].
    + destruct (String.eqb_spec k0 k); [reflexivity | exact IH].
Qed.

Lemma dict_mem_keys k d : dict_mem k d = true <-> In k (keys d).
Proof.
  unfold dict_mem, keys. induction d as [|[k0 v0] d IH]; simpl.
  - split; [discriminate | contradiction].
  - destruct (String.eqb_spec k0 k) as [->|Hne].
    + split; auto.
    + rewrite IH. split; [auto | intros [H|H]; [contradiction | exact H]].
Qed.

Lemma keys_dict_set k v d :
  keys (dict_set k v d)
  = if dict_mem k d then keys d else (keys d ++ [k])%list.
Proof.
  unfold dict_mem, keys. induction d as [|[k0 v0] d IH]; simpl; [reflexivity|].
  destruct (String.eqb_spec k0 k) as [->|Hne]; simpl; [reflexivity|].
  rewrite IH. now destruct (dict_get k d).
Qed.

Lemma NoDup_keys_dict_set k v d : NoDup (keys d) -> NoDup (keys (dict_set k v d)).
Proof.
  intros Hd. rewrite keys_dict_set. destruct (dict_mem k d) eqn:Hm; [exact Hd|].
  apply NoDup_app; [exact Hd | repeat constructor; intros [] |].
  intros x Hx [<-|[]]. apply dict_mem_keys in Hx. congruence.
Qed.

Lemma NoDup_keys_dict_get k v d :
  NoDup (keys d) -> In (k, v) d -> dict_get k d = Some v.
Proof.
  unfold keys. induction d as [|[k0 v0] d IH]; simpl; [contradiction|].
  intros Hd [H|H].
  - injection H as -> ->. now rewrite String.eqb_refl.
  - inversion Hd as [|? ? Hnot Hd']; subst.
    destruct (String.eqb_spec k0 k) as [->|Hne]; [|now apply IH].
    exfalso. apply Hnot. change k with (fst (k, v)). now apply in_map.
Qed.
End DictMore.

(** The outcome of [add_document] in a reachable object. *)
Lemma add_document_in_session_aux
  (tmp key : string) (ops : list op) (env : Env) (file_path : string) :
  let self := run tmp key ops in
  let r := add_document env self file_path in
  returned r = truthy_opt (extract_text_from_file env file_path)
  /\ (returned r = true ->
      exists text cs,
        extract_text_from_file env file_path = Some text
        /\ chunk_text self text = Ok cs /\ cs <> []
        /\ dict_get (basename file_path) (documents (after r))
           = Some (mkDocument file_path cs text)).
Proof.
  intros self r. subst r.
  destruct (store_ok_run tmp key ops) as (Hs & Ho & _). fold self in Hs, Ho.
  destruct (add_document_cases env self file_path)
    as [[Hf E] | [(text & e & Ex & Hne & Hc & E) | (text & cs & Ex & Hne & Hc & E)]];
    rewrite E; unfold returned, after; simpl.
  - split; [now rewrite Hf | discriminate].
  - rewrite chunk_text_windows in Hc by lia. discriminate Hc.
  - split.
    + rewrite Ex. simpl. symmetry. now apply truthy_true_iff.
    + intros _. exists text, cs. repeat split; try assumption.
      * exact (chunk_text_some_chunk self text cs Hs Ho Hne Hc).
      * apply dict_get_set.
Qed.

(** X4. In every object a session can reach, [add_document] returns success
    exactly when extraction yields a non-empty text: the chunker never makes
    it fail there.  On success the entry under the file's base name holds
    the path, the extracted text and a non-empty list of chunks. *)
Theorem add_document_in_session
  (tmp key : string) (ops : list op) (env : Env) (file_path : string) :
  let self := run tmp key ops in
  let r := add_document env self file_path in
  returned r = truthy_opt (extract_text_from_file env file_path)
  /\ (returned r = true ->
      exists text cs,
        extract_text_from_file env file_path = Some text
        /\ chunk_text self text = Ok cs /\ cs <> []
        /\ dict_get (basename file_path) (documents (after r))
           = Some (mkDocument file_path cs text)).
Proof. exact (add_document_in_session_aux tmp key ops env file_path). Qed.

(** X5. [add_document] touches one entry at most: the Document stored under
    any other name is what it was, the names already present keep their
    order, and a new name goes to the end. *)
Theorem add_document_frame (env : Env) (self : t) (file_path : string) :
  let r := add_document env self file_path in
  (forall k, k <> basename file_path ->
     dict_get k (documents (after r)) = dict_get k (documents self))
  /\ keys (documents (after r))
     = if returned r && negb (dict_mem (basename file_path) (documents self))
       then (keys (documents self) ++ [basename file_path])%list
       else keys (documents self).
Proof.
  intros r. subst r.
  destruct (add_document_cases env self file_path)
    as [[_ E] | [(text & e & _ & _ & _ & E) | (text & cs & _ & _ & _ & E)]];
    rewrite E; unfold returned, after; simpl; try (split; reflexivity).
  split.
  - intros k Hk. now apply dict_get_set_other.
  - rewrite keys_dict_set. now destruct (dict_mem _ _).
Qed.

(** What the names of a reachable store satisfy. *)
Lemma names_ok_run (tmp key : string) (ops : list op) :
  NoDup (keys (documents (run tmp key ops)))
  /\ Forall (fun item : string * Document => fst item = basename (path (snd item)))
            (documents (run tmp key ops)).
Proof.
  unfold run.
  assert (H0 : NoDup (keys (documents (init tmp key)))
               /\ Forall (fun item : string * Document =>
                            fst item = basename (path (snd item)))
                         (documents (init tmp key))).
  { split; constructor. }
  revert H0. generalize (init tmp key).
  induction ops as [|o ops IH]; intros self H; simpl; [exact H|].
  apply IH. destruct H as [Hn Hf].
  destruct o as [env file_path | env question |]; simpl; [| now split |].
  - destruct (add_document_cases env self file_path)
      as [[_ E] | [(text & e & _ & _ & _ & E) | (text & cs & _ & _ & _ & E)]];
      rewrite E; unfold after; simpl; try (now split).
    split; [now apply NoDup_keys_dict_set | now apply Forall_dict_set].
  - split; constructor.
Qed.

(** X6. In every object a session can reach the names of the stored
    Documents are pairwise distinct, each name is the base name of the path
    stored with it, and looking a name up returns its Document. *)
Theorem session_names_distinct (tmp key : string) (ops : list op) :
  let docs := documents (run tmp key ops) in
  NoDup (keys docs)
  /\ (forall n d, In (n, d) docs ->
        n = basename (path d) /\ dict_get n docs = Some d).
Proof.
  intros docs. destruct (names_ok_run tmp key ops) as [Hn Hf].
  split; [exact Hn|]. intros n d Hin. split.
  - rewrite Forall_forall in Hf. exact (Hf _ Hin).
  - now apply NoDup_keys_dict_get.
Qed.

(** Only [documents] ever changes. *)
Lemma step_fields (base self : t) (o : op) :
  self = set_documents base (documents self) ->
  step self o = set_documents base (documents (step self o)).
Proof.
  intros H. destruct o as [env file_path | env question |]; simpl; [| exact H |].
  - destruct (add_document_cases env self file_path)
      as [[_ E] | [(text & e & _ & _ & _ & E) | (text & cs & _ & _ & _ & E)]];
      rewrite E; unfold after; simpl; try exact H.
    rewrite H at 1. reflexivity.
  - rewrite H at 1. reflexivity.
Qed.

Lemma run_fields (tmp key : string) (ops : list op) :
  run tmp key ops = set_documents (init tmp key) (documents (run tmp key ops)).
Proof.
  unfold run.
  assert (H0 : init tmp key = set_documents (init tmp key) (documents (init tmp key)))
    by reflexivity.
  revert H0. generalize (init tmp key) at 1 3 4 6.
  induction ops as [|o ops IH]; intros self H; simpl; [exact H|].
  apply IH. now apply step_fields.
Qed.

(** X7. Whatever the session was, [clear] gives back the object the
    constructor builds. *)
Theorem clear_is_constructor (tmp key : string) (ops : list op) :
  snd (clear (run tmp key ops)) = init tmp key.
Proof.
  unfold clear. simpl. rewrite run_fields. reflexivity.
Qed.

End StoreMore.

(** ** Extraction *)

Module ExtractionMore.
Import PyFacts SimpleDocRetrieval Chunking Session StoreSamples Views.
Import ChunkerProps StoreProps ContextProps.

Lemma pdf_accumulate_raise (pages : list (result string)) (e : exn) :
  In (Raise e) pages -> forall text, exists e', pdf_accumulate text pages = Raise e'.
Proof.
  induction pages as [|[page|e0] pages IH]; intros Hin text; simpl.
  - contradiction.
  - destruct Hin as [H|H]; [discriminate | now apply IH].
  - now exists e0.
Qed.

Lemma pdf_accumulate_ok (texts : list string) (text : string) :
  pdf_accumulate text (map Ok texts)
  = Ok (text ++ String.concat "" (map (fun t => t ++ nl) texts)).
Proof.
  revert text. induction texts as [|t texts IH]; intros text; cbn [map pdf_accumulate].
  - simpl. now rewrite append_nil_r.
  - rewrite IH, concat_cons, !append_assoc. reflexivity.
Qed.

(** X8. A file the reader cannot read is not added: when reading a [.txt] or
    a [.docx] file raises, when opening a [.pdf] raises, or when any single
    page of a [.pdf] raises (even after pages that gave text), extraction
    yields the empty text, and [add_document] returns failure without a
    request to the chunker, leaving the object unchanged. *)
Theorem unreadable_file_rejected (env : Env) (self : t) (file_path : string) :
  (lower (snd (splitext file_path)) = ".txt"
   /\ exists e, txt_read env file_path = Raise e)
  \/ (lower (snd (splitext file_path)) = ".docx"
      /\ exists e, docx_paragraphs env file_path = Raise e)
  \/ (lower (snd (splitext file_path)) = ".pdf"
      /\ ((exists e, pdf_pages env file_path = Raise e)
          \/ exists pages e,
               pdf_pages env file_path = Ok pages /\ In (Raise e) pages)) ->
  extract_text_from_file env file_path = Some ""
  /\ add_document env self file_path = (false, self, []).
Proof.
  intros H.
  assert (Ex : extract_text_from_file env file_path = Some "").
  { unfold extract_text_from_file.
    destruct H as [[Hx [e He]] | [[Hx [e He]] | [Hx Hp]]]; rewrite Hx; simpl.
    - unfold _extract_from_txt. now rewrite He.
    - unfold _extract_from_docx. now rewrite He.
    - unfold _extract_from_pdf.
      destruct Hp as [[e He] | (pages & e & Hp & Hin)].
      + now rewrite He.
      + rewrite Hp. simpl.
        destruct (pdf_accumulate_raise pages e Hin "") as [e' ->]. reflexivity. }
  split; [exact Ex|]. unfold add_document. now rewrite Ex.
Qed.

Lemma unreadable_file_rejected_witness :
  extract_text_from_file sample_env "/tmp/missing.TXT" = Some ""
  /\ add_document sample_env sample_store "/tmp/missing.TXT"
     = (false, sample_store, []).
Proof.
  apply (unreadable_file_rejected sample_env sample_store "/tmp/missing.TXT").
  left. split; [reflexivity|].
  exists (Exception "FileNotFoundError" "no such file"). reflexivity.
Defined.

Lemma truthy_append_l (a b : string) : truthy a = true -> truthy (a ++ b) = true.
Proof. now destruct a. Qed.

Lemma truthy_append_r (a b : string) : truthy b = true -> truthy (a ++ b) = true.
Proof. destruct a; simpl; auto. Qed.

(** X9. When every page of a [.pdf] can be read, the extracted text is the
    texts of the pages, each followed by a line feed.  So a PDF with at least
    one page never counts as empty, even when no page carries any text: in
    every object a session can reach [add_document] accepts it. *)
Theorem pdf_text_is_pages
  (env : Env) (file_path : string) (texts : list string)
  (tmp key : string) (ops : list op) :
  lower (snd (splitext file_path)) = ".pdf" ->
  pdf_pages env file_path = Ok (map Ok texts) ->
  extract_text_from_file env file_path
  = Some (String.concat "" (map (fun t => t ++ nl) texts))
  /\ (texts <> [] ->
      returned (add_document env (run tmp key ops) file_path) = true).
Proof.
  intros Hx Hp.
  assert (Ex : extract_text_from_file env file_path
               = Some (String.concat "" (map (fun t => t ++ nl) texts))).
  { unfold extract_text_from_file. rewrite Hx. simpl.
    unfold _extract_from_pdf. rewrite Hp. simpl.
    now rewrite pdf_accumulate_ok. }
  split; [exact Ex|]. intros Hne.
  destruct (StoreMore.add_document_in_session_aux tmp key ops env file_path) as [Hr _].
  rewrite Hr, Ex. simpl.
  destruct texts as [|t texts]; [congruence|].
  cbn [map]. rewrite concat_cons.
  apply truthy_append_l, truthy_append_r. reflexivity.
Qed.

Lemma pdf_text_is_pages_witness :
  extract_text_from_file scanned_pdf_env "/tmp/scan.PDF"
  = Some (String.concat "" (map (fun t => t ++ nl) [""; ""]))
  /\ ([""; ""] <> [] ->
      returned (add_document scanned_pdf_env (run "/tmp" "key" []) "/tmp/scan.PDF")
      = true).
Proof.
  apply (pdf_text_is_pages scanned_pdf_env "/tmp/scan.PDF" [""; ""] "/tmp" "key" []);
    reflexivity.
Defined.

End ExtractionMore.

(** ** More on the assembled context *)

Module ContextMore.
Import PyFacts SimpleDocRetrieval Chunking Session Assembly StoreSamples Views.
Import ChunkerProps StoreProps ContextProps.

Lemma string_concat_app (l1 l2 : list string) :
  String.concat "" (l1 ++ l2) = String.concat "" l1 ++ String.concat "" l2.
Proof.
  induction l1 as [|x l1 IH]; [reflexivity|].
  rewrite <- app_comm_cons, !concat_cons, IH, append_assoc. reflexivity.
Qed.

Lemma len_append (a b : string) : len (a ++ b) = len a + len b.
Proof.
  rewrite !len_chars, chars_append, length_app. lia.
Qed.

Lemma len_slice_to (s : string) (j : Z) : 0 <= j -> len (slice s None (Some j)) <= j.
Proof.
  intros Hj. rewrite len_chars, chars_slice_to, length_firstn by lia. lia.
Qed.

Lemma len_slice_last (s : string) (k : Z) :
  0 < k -> len (slice s (Some (- k)) None) <= k.
Proof.
  intros Hk. unfold slice, adjust_index.
  pose proof (len_chars s) as HL. set (n := len s) in *.
  destruct (Z.ltb_spec (- k) 0); [|lia].
  destruct (Z.ltb_spec (- k + n) 0);
    match goal with |- context [?a <? ?b] => destruct (Z.ltb_spec a b) end;
    try (cbn; lia);
    rewrite len_chars, chars_substring, length_firstn, length_skipn; lia.
Qed.

(** The first chunk of a stored Document begins like its text. *)
Lemma first_chunk_prefix (tmp key : string) (ops : list op) (n : string) (d : Document) :
  In (n, d) (documents (run tmp key ops)) ->
  exists first rest,
    chunks d = first :: rest
    /\ substring 0 500 first = substring 0 500 (full_text d).
Proof.
  intros Hin.
  destruct (in_documents_ok tmp key ops n d Hin) as (Hne & Hc & Hs & Ho).
  pose proof (chunk_text_some_chunk _ _ _ Hs Ho Hne Hc) as Hcs.
  rewrite chunk_text_windows in Hc by lia. injection Hc as Hc.
  rewrite Hs, Ho in Hc.
  destruct (Z.to_nat (ceil_div (len (full_text d)) (1000 - 200))) as [|m] eqn:En.
  - simpl in Hc. congruence.
  - rewrite <- cons_seq, map_cons in Hc. rewrite <- Hc.
    eexists. eexists. split; [reflexivity|].
    apply chars_inj. rewrite !chars_substring, chars_slice by lia.
    cbn [Z.of_nat Z.mul Z.to_nat skipn].
    replace (Z.to_nat (0 + 1000 - 0)) with 1000%nat by lia.
    rewrite firstn_firstn. reflexivity.
Qed.

Lemma beginning_section_quoted (n first : string) (d : Document) :
  substring 0 500 first = substring 0 500 (full_text d) ->
  beginning_section n first = quoted_beginning n d ++ nl ++ nl.
Proof.
  intros H. unfold beginning_section, quoted_beginning. rewrite H.
  now rewrite !append_assoc.
Qed.

(** X10. In every object a session can reach that holds a Document, [query]
    sends exactly one request, to the model gemini-1.5-pro; its prompt
    contains the question and, for every stored Document, the name line
    followed by the first 500 characters of the Document's text. *)
Theorem query_prompt_quotes
  (tmp key : string) (ops : list op) (env : Env) (question : string) :
  let self := run tmp key ops in
  documents self <> [] ->
  exists prompt,
    snd (query env self question) = [Generated "gemini-1.5-pro" prompt]
    /\ (exists pre post, prompt = pre ++ question ++ post)
    /\ (forall n d, In (n, d) (documents self) ->
          exists pre post, prompt = pre ++ quoted_beginning n d ++ post).
Proof.
  intros self Hne.
  exists (build_prompt (build_context (documents self)) question).
  split; [|split].
  - unfold query. destruct (documents self) eqn:Ed; [congruence|].
    cbn [nonempty negb]. rewrite <- Ed.
    assert (Hm : model self = "gemini-1.5-pro").
    { unfold self. rewrite StoreMore.run_fields. reflexivity. }
    rewrite Hm. destruct (generate_content env _ _); reflexivity.
  - unfold build_prompt.
    exists (nl ++
            indent12 ++ "I'll provide you with some context from documents, and then ask a question." ++ nl ++
            indent12 ++ "Please answer the question based on the context provided." ++ nl ++
            indent12 ++ nl ++
            indent12 ++ "Context:" ++ nl ++
            indent12 ++ build_context (documents self) ++ nl ++
            indent12 ++ nl ++
            indent12 ++ "Question: ").
    eexists. rewrite !append_assoc. reflexivity.
  - intros n d Hin.
    destruct (first_chunk_prefix tmp key ops n d Hin) as (first & rest & Hch & Hsub).
    pose proof (document_block_shape n first rest d Hch) as Hb.
    rewrite (beginning_section_quoted n first d Hsub) in Hb.
    destruct (in_split _ _ Hin) as (l1 & l2 & Hl).
    unfold build_prompt. rewrite build_context_blocks. fold self in Hl. rewrite Hl.
    rewrite map_app, map_cons, string_concat_app, concat_cons, Hb.
    exists (nl ++
            indent12 ++ "I'll provide you with some context from documents, and then ask a question." ++ nl ++
            indent12 ++ "Please answer the question based on the context provided." ++ nl ++
            indent12 ++ nl ++
            indent12 ++ "Context:" ++ nl ++
            indent12 ++ context_header ++ String.concat "" (map document_block l1)).
    eexists. rewrite !append_assoc. reflexivity.
Qed.

Lemma query_prompt_quotes_witness :
  exists prompt,
    snd (query sample_env sample_store "What changed?")
    = [Generated "gemini-1.5-pro" prompt]
    /\ (exists pre post, prompt = pre ++ "What changed?" ++ post)
    /\ (forall n d, In (n, d) (documents sample_store) ->
          exists pre post, prompt = pre ++ quoted_beginning n d ++ post).
Proof.
  apply (query_prompt_quotes "/tmp" "key" [Add sample_env "/tmp/a.txt"]
           sample_env "What changed?").
  vm_compute. discriminate.
Defined.

Lemma len_document_block (item : string * Document) :
  len (document_block item) <= len (fst item) + 1063.
Proof.
  unfold document_block, append_document.
  pose proof (len_slice_to (nth 0 (chunks (snd item)) "") 500 ltac:(lia)) as Hb.
  pose proof (len_slice_last (last (chunks (snd item)) "") 500 ltac:(lia)) as He.
  change (- (500)) with (-500) in He.
  assert (L0 : len "" = 0) by reflexivity.
  assert (L1 : len "Document: " = 10) by reflexivity.
  assert (L2 : len nl = 1) by reflexivity.
  assert (L3 : len "Excerpt from beginning:" = 23) by reflexivity.
  assert (L4 : len "..." = 3) by reflexivity.
  assert (L5 : len "Excerpt from end:" = 17) by reflexivity.
  assert (Ln : 0 <= len (fst item)) by (unfold len; lia).
  destruct (nonempty (chunks (snd item))); [|lia].
  destruct (1 <? Z.of_nat (List.length (chunks (snd item))));
    rewrite !len_append; lia.
Qed.

(** X11. The context [query] builds is bounded by the number of Documents and
    the lengths of their names, not by the size of their texts: it has at
    most 44 characters plus, for each Document, the length of its name
    plus 1063. *)
Theorem context_length_bound (docs : dict Document) :
  len (build_context docs) <= context_bound docs.
Proof.
  rewrite build_context_blocks, len_append.
  change (len context_header) with 44.
  induction docs as [|item docs IH]; cbn [map context_bound fold_right].
  - cbn. lia.
  - rewrite concat_cons, len_append.
    pose proof (len_document_block item). unfold context_bound in IH. lia.
Qed.

End ContextMore.

(** ** More on the file processor *)

Module ProcessorMore.
Import PyFacts Ingestion StoreSamples.
Import FileProcessor.

(** X12. Whatever the dispatch table and whatever the handler does, the
    record [process_file] returns carries the path it was given under
    [file_path]. *)
Theorem process_file_carries_path (self : t) (file_path : string) :
  dict_get "file_path" (process_file self file_path) = Some (PStr file_path).
Proof.
  unfold process_file.
  destruct (dict_get _ (supported_extensions self)) as [f|]; [|reflexivity].
  destruct (f file_path) as [r|e]; [|reflexivity].
  rewrite StoreMore.dict_get_set_other by discriminate.
  apply StoreProps.dict_get_set.
Qed.

(** What [process_file] does once the table has a handler. *)
Lemma process_file_dispatch (self : t) (file_path : string) (f : handler) :
  dict_get (extension file_path) (supported_extensions self) = Some f ->
  match f file_path with
  | Ok r =>
      dict_get "file_type" (process_file self file_path)
      = Some (PStr (extension file_path))
      /\ (forall k, k <> "file_path" -> k <> "file_type" ->
            dict_get k (process_file self file_path) = dict_get k r)
  | Raise e =>
      process_file self file_path
      = [ ("success", PBool false);
          ("error", PStr (exn_str e));
          ("file_path", PStr file_path) ]
  end.
Proof.
  intros Hf. unfold process_file. fold (extension file_path). rewrite Hf.
  destruct (f file_path) as [r|e]; [|reflexivity].
  split; [apply StoreProps.dict_get_set|].
  intros k H1 H2. now rewrite !StoreMore.dict_get_set_other.
Qed.

Lemma allowed_has_handler (h : Handlers) (x : string) :
  mem_str x Config.ALLOWED_FILE_TYPES = true ->
  exists f, dict_get x (supported_extensions (init h)) = Some f.
Proof.
  unfold mem_str, Config.ALLOWED_FILE_TYPES. cbn [existsb]. intros H.
  repeat (apply orb_true_iff in H; destruct H as [H|H]);
    try discriminate H;
    apply String.eqb_eq in H; subst x; eexists; reflexivity.
Qed.

(** X13. A path whose extension (without the dot, in lower case) is one of
    [ALLOWED_FILE_TYPES] always reaches a handler of the table.  When the
    handler returns a record, [process_file] returns it with [file_path] and
    [file_type] set, [file_type] being that extension and every other field
    being the handler's; when the handler raises, the result is the failure
    record with the text of the exception. *)
Theorem process_file_allowed (h : Handlers) (file_path : string) :
  mem_str (extension file_path) Config.ALLOWED_FILE_TYPES = true ->
  exists f,
    dict_get (extension file_path) (supported_extensions (init h)) = Some f
    /\ match f file_path with
       | Ok r =>
           dict_get "file_type" (process_file (init h) file_path)
           = Some (PStr (extension file_path))
           /\ (forall k, k <> "file_path" -> k <> "file_type" ->
                 dict_get k (process_file (init h) file_path) = dict_get k r)
       | Raise e =>
           process_file (init h) file_path
           = [ ("success", PBool false);
               ("error", PStr (exn_str e));
               ("file_path", PStr file_path) ]
       end.
Proof.
  intros H. destruct (allowed_has_handler h _ H) as [f Hf].
  exists f. split; [exact Hf | now apply process_file_dispatch].
Qed.

Lemma process_file_allowed_witness :
  exists f,
    dict_get (extension "/tmp/Talk.PPTX")
      (supported_extensions (init no_handlers)) = Some f
    /\ match f "/tmp/Talk.PPTX" with
       | Ok r =>
           dict_get "file_type" (process_file (init no_handlers) "/tmp/Talk.PPTX")
           = Some (PStr (extension "/tmp/Talk.PPTX"))
           /\ (forall k, k <> "file_path" -> k <> "file_type" ->
                 dict_get k (process_file (init no_handlers) "/tmp/Talk.PPTX")
                 = dict_get k r)
       | Raise e =>
           process_file (init no_handlers) "/tmp/Talk.PPTX"
           = [ ("success", PBool false);
               ("error", PStr (exn_str e));
               ("file_path", PStr "/tmp/Talk.PPTX") ]
       end.
Proof.
  apply (process_file_allowed no_handlers "/tmp/Talk.PPTX"). reflexivity.
Defined.

End ProcessorMore.

(** ** More on the Gemini handler *)

Module GeminiMore.
Import PyFacts GeminiHandler Multimodal MediaSamples.

Lemma supported_category_image (x : string) : supported_category ("image/" ++ x) = true.
Proof.
  unfold supported_category. now rewrite (startswith_append "image/" x).
Qed.

Lemma supported_category_audio (x : string) : supported_category ("audio/" ++ x) = true.
Proof.
  unfold supported_category. rewrite (startswith_append "audio/" x).
  now rewrite orb_true_r.
Qed.

(** X14. When the MIME table has no entry for a path, the handler's own
    fallback makes the content type a supported one exactly for the six
    extensions .jpg, .jpeg, .png, .mp3, .wav and .mp4, compared in lower
    case. *)
Theorem fallback_content_type (env : Env) (media_path : string) :
  truthy_opt (guess_type env media_path) = false ->
  supported_category (content_type_of env media_path)
  = mem_str (lower (snd (splitext media_path)))
      [".jpg"; ".jpeg"; ".png"; ".mp3"; ".wav"; ".mp4"].
Proof.
  intros Hg. unfold content_type_of. rewrite Hg. cbn [negb].
  generalize (lower (snd (splitext media_path))). intros ext.
  unfold mem_str. cbn [existsb].
  destruct (String.eqb ext ".jpg") eqn:E1;
    [cbn [orb]; apply supported_category_image|].
  destruct (String.eqb ext ".jpeg") eqn:E2;
    [cbn [orb]; apply supported_category_image|].
  destruct (String.eqb ext ".png") eqn:E3;
    [cbn [orb]; apply supported_category_image|].
  destruct (String.eqb ext ".mp3") eqn:E4;
    [cbn [orb]; apply supported_category_audio|].
  destruct (String.eqb ext ".wav") eqn:E5;
    [cbn [orb]; apply supported_category_audio|].
  destruct (String.eqb ext ".mp4") eqn:E6; reflexivity.
Qed.

Lemma fallback_content_type_witness :
  supported_category (content_type_of sample_media_env "/tmp/Photo.PNG")
  = mem_str (lower (snd (splitext "/tmp/Photo.PNG")))
      [".jpg"; ".jpeg"; ".png"; ".mp3"; ".wav"; ".mp4"].
Proof.
  apply (fallback_content_type sample_media_env "/tmp/Photo.PNG"). reflexivity.
Defined.

(** X15. [get_mime_type] of the file processor and the content type of the
    Gemini handler, given the same MIME table, name a type of the same kind:
    one is an image, audio or video type exactly when the other is.  Their
    strings can differ (image/jpeg against image/jpg, audio/mpeg against
    audio/mp3). *)
Theorem mime_type_same_category (env : Env) (file_path : string) :
  supported_category (FileProcessor.get_mime_type (guess_type env) file_path)
  = supported_category (content_type_of env file_path).
Proof.
  unfold FileProcessor.get_mime_type, content_type_of.
  destruct (truthy_opt (guess_type env file_path)); cbn [negb]; [reflexivity|].
  generalize (lower (snd (splitext file_path))). intros ext.
  unfold mem_str. cbn [existsb].
  destruct (String.eqb_spec ext ".jpg") as [->|H1]; [reflexivity|].
  destruct (String.eqb_spec ext ".jpeg") as [->|H2]; [reflexivity|].
  destruct (String.eqb_spec ext ".png") as [->|H3]; [reflexivity|].
  destruct (String.eqb_spec ext ".pdf") as [->|H4]; [reflexivity|].
  destruct (String.eqb_spec ext ".txt") as [->|H5]; [reflexivity|].
  destruct (String.eqb_spec ext ".mp3") as [->|H6]; [reflexivity|].
  destruct (String.eqb_spec ext ".wav") as [->|H7]; [reflexivity|].
  destruct (String.eqb_spec ext ".mp4") as [->|H8]; [reflexivity|].
  destruct (String.eqb_spec ext ".docx") as [->|H9]; [reflexivity|].
  destruct (String.eqb_spec ext ".pptx") as [->|H10]; reflexivity.
Qed.

Ltac request_sent :=
  split;
  [ split; [intros _; repeat split; eauto | intros _; discriminate]
  | split; [cbn; lia | intros ? He; discriminate He] ].

Ltac nothing_sent :=
  split;
  [ split;
    [ intros H; now contradiction H
    | intros (_ & Hc & Hs); first [discriminate Hs | destruct Hc; discriminate] ]
  | split; [cbn; lia | intros ? He; discriminate He] ].

(** X16. [generate_multimodal_response] sends a request to the model exactly
    when the media file could be read, the context query did not raise and
    the content type is an image, audio or video type; it never sends more
    than one; and when the file cannot be read the answer is "Error
    processing multimodal query: " followed by the text of the exception. *)
Theorem multimodal_request_iff
  (env : Env) (self : t) (text_prompt media_path : string) (rag : rag_manager) :
  let r := generate_multimodal_response env self text_prompt media_path rag in
  (snd r <> [] <->
     (exists media_bytes, read_bytes env media_path = Ok media_bytes)
     /\ (exists context, rag_context rag text_prompt = Ok context)
     /\ supported_category (content_type_of env media_path) = true)
  /\ (List.length (snd r) <= 1)%nat
  /\ (forall e, read_bytes env media_path = Raise e ->
        r = ("Error processing multimodal query: " ++ exn_str e, [])).
Proof.
  intros r. subst r. unfold generate_multimodal_response, supported_category.
  destruct (read_bytes env media_path) as [media_bytes|e]; cbn [snd].
  - destruct (rag_context rag text_prompt) as [context|e].
    + destruct (startswith (content_type_of env media_path) "image/");
        [|destruct (startswith (content_type_of env media_path) "audio/");
          [|destruct (startswith (content_type_of env media_path) "video/")]];
        cbn [orb]; try (destruct (generate_content _ _ _); cbn [snd List.length]);
        first [ request_sent | nothing_sent ].
    + nothing_sent.
  - split; [split; [intros H; now contradiction H | intros ([b Hb] & _); discriminate]
           | split; [cbn; lia | intros e' He; injection He as <-; reflexivity]].
Qed.

(** X17. [generate_text_response] sends nothing when the context query
    raises.  Otherwise it sends one request to the text model: the user's
    prompt unchanged when there is no RAG manager or the context is empty,
    and otherwise a prompt in which the context comes first and the user's
    prompt after it.  The answer is the text of the response, or "Error
    generating response: " followed by the text of the exception. *)
Theorem text_response_request
  (env : Env) (self : t) (prompt : string) (rag : rag_manager) :
  let r := generate_text_response env self prompt rag in
  match (match rag with Some rag_query => rag_query prompt | None => Ok "" end) with
  | Raise e => r = ("Error generating response: " ++ exn_str e, [])
  | Ok context =>
      snd r = [Generated (text_model self)
                 [Text (build_complete_prompt context prompt)]]
      /\ (context = "" -> build_complete_prompt context prompt = prompt)
      /\ (context <> "" ->
          exists pre mid post,
            build_complete_prompt context prompt
            = pre ++ context ++ mid ++ prompt ++ post)
      /\ fst r
         = match generate_content env (text_model self)
                   [Text (build_complete_prompt context prompt)] with
           | Ok text => text
           | Raise e => "Error generating response: " ++ exn_str e
           end
  end.
Proof.
  intros r. subst r. unfold generate_text_response.
  destruct (match rag with Some rag_query => rag_query prompt | None => Ok "" end)
    as [context|e]; [|reflexivity].
  split; [destruct (generate_content _ _ _); reflexivity|].
  split; [intros ->; reflexivity|].
  split; [|destruct (generate_content _ _ _); reflexivity].
  intros Hne. unfold build_complete_prompt.
  apply truthy_true_iff in Hne. rewrite Hne.
  exists (nl ++ indent16 ++ "Here is some relevant context information: " ++ nl ++ indent16).
  exists (nl ++ indent16 ++ nl ++
          indent16 ++ "Based on this context and your knowledge, please answer the following question:" ++ nl ++
          indent16).
  exists (nl ++ indent16).
  now rewrite !append_assoc.
Qed.

End GeminiMore.

(** ** The RAG tool manager *)

Module RagProps.
Import PyFacts Session Ingestion RagViews.
Import RagToolManager.

Lemma headed_forall_app (l1 l2 : list string) :
  Forall headed l1 -> Forall headed l2 -> Forall headed (l1 ++ l2).
Proof. intros H1 H2. apply Forall_app. now split. Qed.

(** One stage of [query] that runs a single tool. *)
Lemma tool_stage (cond : bool) (run : result (option string))
  (line : option string -> string) (ev : event)
  (results r : list string) (events e : list event) :
  (forall res, headed (line res)) ->
  (if cond then
     match run with
     | Ok res =>
         (if usable res then (results ++ [line res])%list else results,
          (events ++ [ev])%list)
     | Raise _ => (results, (events ++ [ev])%list)
     end
   else (results, events)) = (r, e) ->
  exists rs es,
    r = (results ++ rs)%list /\ e = (events ++ es)%list
    /\ Forall headed rs /\ (es = [] \/ es = [ev])
    /\ (cond = false -> rs = [] /\ es = []).
Proof.
  intros Hline. destruct cond.
  - destruct run as [res|x].
    + destruct (usable res); intros H; injection H as <- <-.
      * exists [line res], [ev]. repeat split; auto; discriminate.
      * exists [], [ev]. rewrite app_nil_r. repeat split; auto; discriminate.
    + intros H; injection H as <- <-.
      exists [], [ev]. rewrite app_nil_r. repeat split; auto; discriminate.
  - intros H; injection H as <- <-.
    exists [], []. rewrite !app_nil_r. repeat split; auto.
Qed.

(** The loop over the PDFs appends headed lines and runs the PDF tool at
    most once per PDF. *)
Lemma pdf_loop_appends (env : Env) (self : t) (q : string) (docs : list entry) :
  forall results events,
  exists rs es,
    pdf_loop env self q docs results events = ((results ++ rs)%list, (events ++ es)%list)
    /\ Forall headed rs
    /\ (List.length es <= List.length docs)%nat
    /\ Forall (fun e => is_pdf_run e = true) es.
Proof.
  induction docs as [|doc docs IH]; intros results events; cbn [pdf_loop].
  - exists [], []. rewrite !app_nil_r. repeat split; auto.
  - destruct (pdf_run env (pdf_tool self) q (field "path" doc)) as [res|x].
    + match goal with |- context [pdf_loop env self q docs ?r ?e] =>
        destruct (IH r e) as (rs & es & E & Hh & Hl & Hp)
      end.
      rewrite E. destruct (usable res).
      * eexists (_ :: rs), (_ :: es). rewrite <- !app_assoc. cbn [app].
        split; [reflexivity|]. split; [|split].
        -- constructor; [|exact Hh]. eexists. reflexivity.
        -- cbn. lia.
        -- constructor; [reflexivity | exact Hp].
      * exists rs. eexists (_ :: es). rewrite <- !app_assoc. cbn [app].
        split; [reflexivity|]. split; [exact Hh|split].
        -- cbn. lia.
        -- constructor; [reflexivity | exact Hp].
    + exists []. eexists [_]. rewrite app_nil_r.
      split; [reflexivity|]. split; [constructor|split].
      * cbn. lia.
      * constructor; [reflexivity | constructor].
Qed.

(** What [query] returns, stage by stage. *)
Lemma query_shape (env : Env) (self : t) (q : string) :
  exists results events,
    query env self q
    = (if nonempty results then (join (nl ++ nl) results, events)
       else (no_information, events))
    /\ Forall headed results
    /\ (List.length (filter is_pdf_run events) <= 3)%nat
    /\ (List.length events <= 6)%nat.
Proof.
  unfold query.
  match goal with |- context [match ?X with pair _ _ => _ end] =>
    destruct X as [r1 e1] eqn:E1 end.
  apply tool_stage in E1; [|intros res; eexists; reflexivity].
  destruct E1 as (rs1 & es1 & -> & -> & Hh1 & He1 & _).
  match goal with |- context [match ?X with pair _ _ => _ end] =>
    destruct X as [r2 e2] eqn:E2 end.
  assert (H2 : exists rs es,
             r2 = (([] ++ rs1) ++ rs)%list /\ e2 = (([] ++ es1) ++ es)%list
             /\ Forall headed rs /\ (List.length es <= 3)%nat
             /\ Forall (fun e => is_pdf_run e = true) es).
  { destruct (nonempty (documents (knowledge_base self))).
    - match type of E2 with context [nonempty ?l] => destruct (nonempty l) end.
      + match type of E2 with pdf_loop _ _ _ ?d ?r ?e = _ =>
          destruct (pdf_loop_appends env self q d r e) as (rs & es & E & Hh & Hl & Hp)
        end.
        rewrite E in E2. injection E2 as <- <-.
        exists rs, es. rewrite length_firstn in Hl.
        repeat split; auto; lia.
      + injection E2 as <- <-. exists [], []. rewrite !app_nil_r.
        repeat split; auto; cbn; lia.
    - injection E2 as <- <-. exists [], []. rewrite !app_nil_r.
      repeat split; auto; cbn; lia. }
  destruct H2 as (rs2 & es2 & -> & -> & Hh2 & Hl2 & Hp2).
  match goal with |- context [match ?X with pair _ _ => _ end] =>
    destruct X as [r3 e3] eqn:E3 end.
  apply tool_stage in E3; [|intros res; eexists; reflexivity].
  destruct E3 as (rs3 & es3 & -> & -> & Hh3 & He3 & _).
  match goal with |- context [match ?X with pair _ _ => _ end] =>
    destruct X as [r4 e4] eqn:E4 end.
  apply tool_stage in E4; [|intros res; eexists; reflexivity].
  destruct E4 as (rs4 & es4 & -> & -> & Hh4 & He4 & _).
  eexists. eexists. split.
  - reflexivity.
  - cbn [app]. repeat split.
    + repeat apply headed_forall_app; assumption.
    + rewrite !filter_app, !length_app.
      assert (Hf : (List.length (filter is_pdf_run es2) <= 3)%nat).
      { pose proof (filter_length_le is_pdf_run es2). lia. }
      destruct He1 as [->| ->]; destruct He3 as [->| ->]; destruct He4 as [->| ->];
        cbn; lia.
    + rewrite !length_app.
      destruct He1 as [->| ->]; destruct He3 as [->| ->]; destruct He4 as [->| ->];
        cbn; lia.
Qed.

Lemma join_headed (sep x : string) (l : list string) :
  headed x -> headed (join sep (x :: l)).
Proof.
  intros [y ->]. destruct l as [|z l]; cbn [join].
  - now exists y.
  - eexists. rewrite append_assoc. reflexivity.
Qed.

Lemma headed_startswith (s : string) : headed s -> startswith s "### " = true.
Proof. intros [x ->]. apply startswith_append. Qed.

(** The answer of [query] is never the empty string. *)
Lemma query_answer (env : Env) (self : t) (q : string) :
  fst (query env self q) = no_information
  \/ headed (fst (query env self q)).
Proof.
  destruct (query_shape env self q) as (results & events & E & Hh & _).
  rewrite E. destruct results as [|x l]; cbn [nonempty fst]; [now left|].
  right. apply join_headed. now inversion Hh.
Qed.

(** X18. [query] of the tool manager never returns the empty string: its
    answer is the sentence "No relevant information found in the knowledge
    base." or it opens with a "### " heading.  With no document, no web page
    and no YouTube video logged it calls no tool and returns that sentence,
    whatever images, audio and video files were added. *)
Theorem rag_query_never_empty (env : Env) (self : t) (query_text : string) :
  fst (query env self query_text) <> ""
  /\ (fst (query env self query_text)
      = "No relevant information found in the knowledge base."
      \/ startswith (fst (query env self query_text)) "### " = true)
  /\ (documents (knowledge_base self) = [] ->
      web_pages (knowledge_base self) = [] ->
      youtube_videos (knowledge_base self) = [] ->
      query env self query_text
      = ("No relevant information found in the knowledge base.", [])).
Proof.
  assert (H3 : documents (knowledge_base self) = [] ->
               web_pages (knowledge_base self) = [] ->
               youtube_videos (knowledge_base self) = [] ->
               query env self query_text
               = ("No relevant information found in the knowledge base.", [])).
  { intros Hd Hw Hy. unfold query. rewrite Hd, Hw, Hy. reflexivity. }
  destruct (query_answer env self query_text) as [E|H].
  - rewrite E. split; [discriminate | split; [now left | exact H3]].
  - split; [destruct H as [x ->]; discriminate|].
    split; [right; now apply headed_startswith | exact H3].
Qed.

(** X19. One call of [query] runs the PDF tool at most three times, however
    many PDFs were added, and makes at most six tool calls in all. *)
Theorem rag_query_bounded_calls (env : Env) (self : t) (query_text : string) :
  (List.length (filter is_pdf_run (snd (query env self query_text))) <= 3)%nat
  /\ (List.length (snd (query env self query_text)) <= 6)%nat.
Proof.
  destruct (query_shape env self query_text) as (results & events & E & _ & H3 & H6).
  rewrite E. destruct (nonempty results); cbn [snd]; now split.
Qed.

End RagProps.

(** ** Ingestion into the RAG tool manager *)

Module RagIngest.
Import PyFacts Session Ingestion RagViews.
Import RagToolManager.

Lemma length_snoc {A : Type} (l : list A) (x : A) :
  List.length (l ++ [x]) = S (List.length l).
Proof. rewrite length_app. cbn. lia. Qed.

Ltac effect_size :=
  unfold registry_size; cbn; rewrite ?length_snoc; lia.

Lemma guarded_settled (self : t) (data_type source : string) (r : effect) :
  settled self data_type source r ->
  (returned (guarded r) = true ->
   registry_size (knowledge_base (after (guarded r)))
   = S (registry_size (knowledge_base self)))
  /\ (returned (guarded r) = false ->
      knowledge_base (after (guarded r)) = knowledge_base self
      /\ pdf_tool (after (guarded r)) = pdf_tool self
      /\ youtube_tool (after (guarded r)) = youtube_tool self
      /\ website_tool (after (guarded r)) = website_tool self
      /\ (rag_contents (after (guarded r)) = rag_contents self
          \/ rag_contents (after (guarded r))
             = (rag_contents self ++ [(data_type, source)])%list)).
Proof.
  unfold settled. destruct r as [[[u|e] self'] events]; unfold returned, after; cbn.
  - intros H. split; [auto | discriminate].
  - intros H. split; [discriminate | auto].
Qed.

Lemma add_pdf_settled env self p : settled self "file" p (_add_pdf env self p).
Proof.
  unfold settled, _add_pdf. destruct (rag_add env "file" p); [|cbn; auto 10].
  destruct (make_pdf_tool env p); [effect_size | cbn; auto 10].
Qed.

Lemma add_document_settled env self p : settled self "file" p (_add_document env self p).
Proof.
  unfold settled, _add_document. destruct (rag_add env "file" p); [|cbn; auto 10].
  effect_size.
Qed.

Lemma add_youtube_settled env self url :
  settled self "web_page" url (_add_youtube_video env self url).
Proof.
  unfold settled, _add_youtube_video.
  destruct (make_youtube_tool env url); [effect_size | cbn; auto 10].
Qed.

Lemma add_website_settled env self url :
  settled self "web_page" url (_add_website env self url).
Proof.
  unfold settled, _add_website. destruct (rag_add env "web_page" url); [|cbn; auto 10].
  destruct (make_website_tool env url); [effect_size | cbn; auto 10].
Qed.

Lemma add_media_settled env self p (r : effect) :
  r = _add_image env self p \/ r = _add_audio env self p \/ r = _add_video env self p ->
  settled self "file" p r.
Proof.
  intros [->|[->| ->]]; unfold settled; effect_size.
Qed.

(** X20. [add_to_knowledge_base] and [add_web_content] log an entry exactly
    when they return true: then the registry has one more entry.  When they
    return false the registry and the three tool attributes are what they
    were, and the RAG tool holds what it held or that and the source.  The
    latter happens: when [rag_tool.add] accepts a PDF or a web page and the
    constructor of the search tool then raises, false is returned and the
    source stays in the RAG tool. *)
Theorem rag_add_outcome (env : Env) (self : t) (file_path url : string) :
  let by_file := add_to_knowledge_base env self file_path in
  let by_url := add_web_content env self url in
  ((returned by_file = true ->
    registry_size (knowledge_base (after by_file))
    = S (registry_size (knowledge_base self)))
   /\ (returned by_file = false ->
       knowledge_base (after by_file) = knowledge_base self
       /\ pdf_tool (after by_file) = pdf_tool self
       /\ youtube_tool (after by_file) = youtube_tool self
       /\ website_tool (after by_file) = website_tool self
       /\ (rag_contents (after by_file) = rag_contents self
           \/ rag_contents (after by_file)
              = (rag_contents self ++ [("file", file_path)])%list)))
  /\ ((returned by_url = true ->
       registry_size (knowledge_base (after by_url))
       = S (registry_size (knowledge_base self)))
      /\ (returned by_url = false ->
          knowledge_base (after by_url) = knowledge_base self
          /\ pdf_tool (after by_url) = pdf_tool self
          /\ youtube_tool (after by_url) = youtube_tool self
          /\ website_tool (after by_url) = website_tool self
          /\ (rag_contents (after by_url) = rag_contents self
              \/ rag_contents (after by_url)
                 = (rag_contents self ++ [("web_page", url)])%list)))
  /\ (forall u e,
        extension file_path = "pdf" ->
        rag_add env "file" file_path = Ok u ->
        make_pdf_tool env file_path = Raise e ->
        returned by_file = false
        /\ rag_contents (after by_file)
           = (rag_contents self ++ [("file", file_path)])%list)
  /\ (forall u e,
        contains url "youtube.com" || contains url "youtu.be" = false ->
        rag_add env "web_page" url = Ok u ->
        make_website_tool env url = Raise e ->
        returned by_url = false
        /\ rag_contents (after by_url)
           = (rag_contents self ++ [("web_page", url)])%list).
Proof.
  intros by_file by_url. subst by_file by_url.
  split; [|split; [|split]].
  - apply guarded_settled. unfold add_to_knowledge_base.
    repeat match goal with |- context [if ?c then _ else _] => destruct c end;
      first [ apply add_pdf_settled | apply add_document_settled
            | eapply add_media_settled; eauto ].
  - apply guarded_settled. unfold add_web_content.
    destruct (contains url "youtube.com" || contains url "youtu.be");
      [apply add_youtube_settled | apply add_website_settled].
  - intros u e Hx Ha Hm. unfold add_to_knowledge_base.
    fold (extension file_path). rewrite Hx. cbn [String.eqb Ascii.eqb Bool.eqb].
    unfold _add_pdf. rewrite Ha, Hm. split; reflexivity.
  - intros u e Hy Ha Hm. unfold add_web_content. rewrite Hy.
    unfold _add_website. rewrite Ha, Hm. split; reflexivity.
Qed.

Lemma rag_add_outcome_witness :
  returned (add_to_knowledge_base half_env init "/tmp/Report.PDF") = false
  /\ rag_contents (after (add_to_knowledge_base half_env init "/tmp/Report.PDF"))
     = [("file", "/tmp/Report.PDF")]
  /\ knowledge_base (after (add_to_knowledge_base half_env init "/tmp/Report.PDF"))
     = knowledge_base init.
Proof.
  destruct (rag_add_outcome half_env init "/tmp/Report.PDF" "https://example.org")
    as ((_ & Hf) & _ & Hp & _).
  destruct (Hp tt (Exception "ValueError" "cannot read the PDF")
              eq_refl eq_refl eq_refl) as [Hr Hc].
  split; [exact Hr|]. split; [exact Hc|]. exact (proj1 (Hf Hr)).
Defined.

(** [query] reads three of the six registry lists and the three tools. *)
Lemma query_reads (env : Env) (self self' : t) (q : string) :
  pdf_tool self' = pdf_tool self ->
  youtube_tool self' = youtube_tool self ->
  website_tool self' = website_tool self ->
  documents (knowledge_base self') = documents (knowledge_base self) ->
  web_pages (knowledge_base self') = web_pages (knowledge_base self) ->
  youtube_videos (knowledge_base self') = youtube_videos (knowledge_base self) ->
  query env self' q = query env self q.
Proof.
  intros Hp Hy Hw Hd Hwp Hyv.
  assert (Hloop : forall docs results events,
             pdf_loop env self' q docs results events
             = pdf_loop env self q docs results events).
  { induction docs as [|doc docs IH]; intros results events; cbn [pdf_loop];
      [reflexivity|].
    rewrite Hp. destruct (pdf_run env _ _ _); [|reflexivity]. apply IH. }
  unfold query. rewrite Hd, Hwp, Hyv, Hy, Hw.
  match goal with |- context [match ?X with pair _ _ => _ end] =>
    destruct X as [r1 e1] end.
  rewrite Hloop. reflexivity.
Qed.

(** X21. A file whose extension is png, jpg, jpeg, mp3, wav or mp4 is only
    logged: [add_to_knowledge_base] returns true, calls no tool, adds one
    entry to the registry, and leaves every later [query] with the answer and
    the tool calls it would have had without the file. *)
Theorem media_file_only_logged (env : Env) (self : t) (file_path : string) :
  mem_str (extension file_path) ["png"; "jpg"; "jpeg"; "mp3"; "wav"; "mp4"] = true ->
  let r := add_to_knowledge_base env self file_path in
  returned r = true
  /\ emitted r = []
  /\ registry_size (knowledge_base (after r))
     = S (registry_size (knowledge_base self))
  /\ (forall env' query_text,
        query env' (after r) query_text = query env' self query_text).
Proof.
  intros H r. subst r. unfold add_to_knowledge_base. fold (extension file_path).
  revert H. generalize (extension file_path). intros x H.
  unfold mem_str in H. cbn [existsb] in H.
  repeat (apply orb_true_iff in H; destruct H as [H|H]);
    try discriminate H;
    apply String.eqb_eq in H; subst x; cbn;
    (split; [reflexivity|]; split; [reflexivity|]; split; [effect_size|];
     intros env' q; apply query_reads; reflexivity).
Qed.

Lemma media_file_only_logged_witness :
  let r := add_to_knowledge_base failing_env init "/tmp/Clip.MP4" in
  returned r = true
  /\ emitted r = []
  /\ registry_size (knowledge_base (after r))
     = S (registry_size (knowledge_base init))
  /\ (forall env' query_text,
        query env' (after r) query_text = query env' init query_text).
Proof.
  apply (media_file_only_logged failing_env init "/tmp/Clip.MP4"). reflexivity.
Defined.

(** X22. A file whose extension is outside [ALLOWED_FILE_TYPES], which
    [process_file] rejects, is still handed to the RAG tool as a generic
    file: when the tool accepts it, [add_to_knowledge_base] returns true and
    logs it under [documents] with its extension as type. *)
Theorem unknown_extension_indexed
  (env : Env) (self : t) (file_path : string) (u : unit) :
  mem_str (extension file_path) Config.ALLOWED_FILE_TYPES = false ->
  rag_add env "file" file_path = Ok u ->
  add_to_knowledge_base env self file_path
  = (true,
     set_knowledge_base (with_source self "file" file_path)
       (set_documents (knowledge_base self)
          (documents (knowledge_base self) ++ [document_entry env file_path])%list),
     [RagAdd "file" file_path]).
Proof.
  intros H Hadd. unfold add_to_knowledge_base. fold (extension file_path).
  assert (E : forall x, mem_str x Config.ALLOWED_FILE_TYPES = false ->
                String.eqb x "pdf" = false
                /\ mem_str x ["txt"; "docx"; "pptx"] = false
                /\ mem_str x ["png"; "jpg"; "jpeg"] = false
                /\ mem_str x ["mp3"; "wav"] = false
                /\ mem_str x ["mp4"] = false).
  { intros x Hx. unfold mem_str, Config.ALLOWED_FILE_TYPES in *. cbn [existsb] in *.
    repeat (apply orb_false_iff in Hx; destruct Hx as [?Hx Hx]).
    repeat match goal with Hk : String.eqb x _ = false |- _ => rewrite Hk; clear Hk end.
    repeat split; reflexivity. }
  destruct (E _ H) as (-> & -> & -> & -> & ->).
  unfold _add_document. rewrite Hadd. reflexivity.
Qed.

Lemma unknown_extension_indexed_witness :
  add_to_knowledge_base helpful_env init "/tmp/Setup.EXE"
  = (true,
     set_knowledge_base (with_source init "file" "/tmp/Setup.EXE")
       (set_documents (knowledge_base init)
          (documents (knowledge_base init)
           ++ [document_entry helpful_env "/tmp/Setup.EXE"])%list),
     [RagAdd "file" "/tmp/Setup.EXE"]).
Proof.
  apply (unknown_extension_indexed helpful_env init "/tmp/Setup.EXE" tt); reflexivity.
Defined.

(** X23. A URL that contains "youtube.com" or "youtu.be" is never handed to
    the general RAG tool: [add_web_content] only builds a YouTube tool for
    it, leaves [web_pages] and [documents] as they were, and on success logs
    the URL under [youtube_videos] and keeps the new tool. *)
Theorem youtube_url_not_indexed (env : Env) (self : t) (url : string) :
  contains url "youtube.com" || contains url "youtu.be" = true ->
  let r := add_web_content env self url in
  emitted r = [MakeYoutubeTool url]
  /\ web_pages (knowledge_base (after r)) = web_pages (knowledge_base self)
  /\ documents (knowledge_base (after r)) = documents (knowledge_base self)
  /\ (returned r = true ->
      youtube_tool (after r) = ForSource url
      /\ youtube_videos (knowledge_base (after r))
         = (youtube_videos (knowledge_base self)
            ++ [[("url", url); ("added_at", now env)]])%list).
Proof.
  intros H r. subst r. unfold add_web_content. rewrite H.
  unfold _add_youtube_video.
  destruct (make_youtube_tool env url); cbn;
    repeat split; try reflexivity; discriminate.
Qed.

Lemma youtube_url_not_indexed_witness :
  let r := add_web_content helpful_env init "https://youtu.be/abc123" in
  emitted r = [MakeYoutubeTool "https://youtu.be/abc123"]
  /\ web_pages (knowledge_base (after r)) = web_pages (knowledge_base init)
  /\ documents (knowledge_base (after r)) = documents (knowledge_base init)
  /\ (returned r = true ->
      youtube_tool (after r) = ForSource "https://youtu.be/abc123"
      /\ youtube_videos (knowledge_base (after r))
         = (youtube_videos (knowledge_base init)
            ++ [[("url", "https://youtu.be/abc123");
                 ("added_at", now helpful_env)]])%list).
Proof.
  apply (youtube_url_not_indexed helpful_env init "https://youtu.be/abc123").
  reflexivity.
Defined.

(** X24. With a tool manager as its RAG manager, [generate_text_response]
    never sends the user's prompt on its own: the context is never empty (on
    an empty knowledge base it is the no-information sentence), so the one
    request is always the wrapped prompt, context first. *)
Theorem text_response_always_wrapped
  (genv : GeminiHandler.Env) (handler : GeminiHandler.t)
  (env : Env) (self : t) (prompt : string) :
  let context := fst (query env self prompt) in
  context <> ""
  /\ snd (GeminiHandler.generate_text_response genv handler prompt
            (as_rag_manager env self))
     = [GeminiHandler.Generated (GeminiHandler.text_model handler)
          [GeminiHandler.Text
             (nl ++
              GeminiHandler.indent16 ++ "Here is some relevant context information: " ++ nl ++
              GeminiHandler.indent16 ++ context ++ nl ++
              GeminiHandler.indent16 ++ nl ++
              GeminiHandler.indent16 ++ "Based on this context and your knowledge, please answer the following question:" ++ nl ++
              GeminiHandler.indent16 ++ prompt ++ nl ++
              GeminiHandler.indent16)]].
Proof.
  intros context.
  assert (Hne : context <> "").
  { unfold context. destruct (RagProps.query_answer env self prompt) as [E|[x E]];
      rewrite E; discriminate. }
  split; [exact Hne|].
  unfold GeminiHandler.generate_text_response, as_rag_manager.
  fold context. unfold GeminiHandler.build_complete_prompt.
  apply truthy_true_iff in Hne. rewrite Hne.
  destruct (GeminiHandler.generate_content _ _ _); reflexivity.
Qed.

End RagIngest.

(** ** Paths *)

Module PathFacts.
Import PyFacts.

Lemma len_app_string (a b : string) : len (a ++ b) = len a + len b.
Proof. rewrite !len_chars, chars_append, length_app. lia. Qed.

Lemma rfind_from_app (c : ascii) (a b : string) :
  forall i acc,
    rfind_from c (a ++ b) i acc = rfind_from c b (i + len a) (rfind_from c a i acc).
Proof.
  induction a as [|x a IH]; intros i acc; simpl.
  - f_equal. unfold len. simpl. lia.
  - rewrite IH. f_equal. unfold len. simpl String.length. lia.
Qed.

Lemma contains_slash_cons (x : ascii) (s : string) :
  contains (String x s) "/" = false -> x <> "/"%char /\ contains s "/" = false.
Proof.
  cbn [contains prefix]. destruct (ascii_dec "/" x) as [<-|Hne].
  - destruct s; discriminate.
  - intros H. split; [congruence | exact H].
Qed.

Lemma rfind_from_absent (s : string) :
  contains s "/" = false -> forall i acc, rfind_from "/" s i acc = acc.
Proof.
  induction s as [|x s IH]; intros H i acc; simpl; [reflexivity|].
  apply contains_slash_cons in H. destruct H as [Hx Hs].
  destruct (Ascii.eqb_spec x "/"); [contradiction|]. now apply IH.
Qed.

Lemma startswith_slash_absent (s : string) :
  contains s "/" = false -> startswith s "/" = false.
Proof.
  destruct s as [|x s]; [reflexivity|]. intros H.
  apply contains_slash_cons in H. destruct H as [Hx _].
  unfold startswith. cbn [prefix].
  destruct (ascii_dec "/" x); [congruence | reflexivity].
Qed.

(** A string that ends with [/] is some string followed by [/]. *)
Lemma endswith_slash (a : string) :
  endswith_char a "/" = true -> exists a', a = a' ++ "/".
Proof.
  unfold endswith_char. intros H. apply String.eqb_eq in H.
  exists (string_of_list_ascii (firstn (List.length (chars a) - 1) (chars a))).
  apply chars_inj. rewrite chars_append, list_ascii_of_string_of_list_ascii.
  apply (f_equal list_ascii_of_string) in H.
  unfold slice, adjust_index in H. pose proof (len_chars a) as HL.
  cbn [Z.ltb Z.compare] in H.
  destruct (Z.ltb_spec (-1 + len a) 0) as [Hn|Hn].
  - destruct (Z.ltb_spec 0 (len a)); [lia|]. discriminate H.
  - destruct (Z.ltb_spec (-1 + len a) (len a)); [|lia].
    rewrite chars_substring in H.
    replace (Z.to_nat (-1 + len a)) with (List.length (chars a) - 1)%nat in H by lia.
    rewrite firstn_all2 in H by (rewrite length_skipn; lia).
    rewrite <- H. symmetry. apply firstn_skipn.
Qed.

(** The base name of a directory prefix followed by a plain file name. *)
Lemma basename_append (x file_name : string) :
  contains file_name "/" = false ->
  x = "" \/ (exists x', x = x' ++ "/") ->
  basename (x ++ file_name) = file_name.
Proof.
  intros Hn Hx. unfold basename, rfind.
  rewrite rfind_from_app, (rfind_from_absent _ Hn).
  assert (Hr : rfind_from "/" x 0 (-1) + 1 = len x).
  { destruct Hx as [->|[x' ->]]; [reflexivity|].
    rewrite rfind_from_app, len_app_string. simpl. unfold len at 3. simpl. lia. }
  rewrite Hr. apply chars_inj.
  rewrite chars_slice_from by (unfold len; lia).
  rewrite chars_append, len_chars, Nat2Z.id.
  rewrite skipn_app, skipn_all, Nat.sub_diag. reflexivity.
Qed.

(** The temporary path of an uploaded file ends in its name. *)
Lemma basename_path_join (dir file_name : string) :
  contains file_name "/" = false ->
  basename (path_join dir file_name) = file_name.
Proof.
  intros Hn. unfold path_join. rewrite (startswith_slash_absent _ Hn).
  destruct (truthy dir) eqn:Hd; cbn [negb orb].
  - destruct (endswith_char dir "/") eqn:He.
    + apply basename_append; [exact Hn|]. right. now apply endswith_slash.
    + rewrite <- append_assoc. apply basename_append; [exact Hn|].
      right. now exists dir.
  - destruct dir; [|discriminate]. apply basename_append; auto.
Qed.

End PathFacts.

(** ** Sessions of simple_app.py *)

Module AppProps.
Import PyFacts Session AppViews.
Import SimpleApp.

Lemma mem_str_In (x : string) (l : list string) : mem_str x l = true <-> In x l.
Proof.
  unfold mem_str. rewrite existsb_exists. split.
  - intros [y [Hy E]]. apply String.eqb_eq in E. now subst.
  - intros H. exists x. split; [exact H | apply String.eqb_refl].
Qed.

Lemma process_upload_in_step dr files uploaded :
  slash_free (name uploaded) = true ->
  in_step dr files ->
  in_step (snd (fst (process_upload dr files uploaded)))
          (snd (process_upload dr files uploaded)).
Proof.
  intros Hname [Hmap Hnd]. unfold process_upload.
  set (l := match files with Some l => l | None => [] end).
  assert (Hl : map filename l = map fst (SimpleDocRetrieval.documents dr)).
  { unfold l. now destruct files. }
  clear Hmap. rename Hl into Hmap.
  destruct (mem_str (name uploaded) (map filename l)) eqn:Hmem; [now split|].
  destruct (written uploaded) as [env|e]; [|now split].
  set (p := path_join (SimpleDocRetrieval.temp_dir dr) (name uploaded)).
  assert (Hbase : basename p = name uploaded).
  { apply PathFacts.basename_path_join.
    unfold slash_free in Hname. now destruct (contains (name uploaded) "/"). }
  assert (Hnew : dict_mem (name uploaded) (SimpleDocRetrieval.documents dr) = false).
  { destruct (dict_mem _ _) eqn:Hm; [|reflexivity].
    apply StoreMore.dict_mem_keys in Hm. unfold Views.keys in Hm.
    rewrite <- Hmap in Hm. apply mem_str_In in Hm. congruence. }
  destruct (StoreProps.add_document_cases env dr p)
    as [[_ E] | [(text & e & _ & _ & _ & E) | (text & cs & _ & _ & _ & E)]];
    rewrite E; cbn [fst snd]; try (now split).
  rewrite Hbase. unfold in_step. cbn [SimpleDocRetrieval.documents
    SimpleDocRetrieval.set_documents].
  pose proof (StoreMore.keys_dict_set (name uploaded)
                (SimpleDocRetrieval.mkDocument p cs text)
                (SimpleDocRetrieval.documents dr)) as Hk.
  rewrite Hnew in Hk. unfold Views.keys in Hk. rewrite Hk.
  split.
  - rewrite map_app, Hmap. reflexivity.
  - apply NoDup_app; [exact Hnd | repeat constructor; intros [] |].
    intros x Hx [<-|[]]. apply StoreMore.dict_mem_keys in Hx. congruence.
Qed.

Lemma upload_loop_in_step uploaded_files :
  forall dr files,
    forallb (fun f => slash_free (name f)) uploaded_files = true ->
    in_step dr files ->
    in_step (snd (fst (upload_loop dr files uploaded_files)))
            (snd (upload_loop dr files uploaded_files)).
Proof.
  induction uploaded_files as [|f fs IH]; intros dr files Hn Hin; cbn [upload_loop].
  - exact Hin.
  - cbn [forallb] in Hn. apply andb_true_iff in Hn. destruct Hn as [Hf Hfs].
    pose proof (process_upload_in_step dr files f Hf Hin) as H1.
    destruct (process_upload dr files f) as [[[u|e] dr1] files1]; cbn [fst snd] in *.
    + now apply IH.
    + exact H1.
Qed.

Lemma sidebar_ok tmp key uploaded cleared st :
  forallb (fun f => slash_free (name f)) uploaded = true ->
  state_ok st -> state_ok (snd (sidebar tmp key uploaded cleared st)).
Proof.
  intros Hn [Ht Hnd]. unfold sidebar.
  destruct (truthy key); [|now split].
  set (dr := match doc_retrieval st with
             | Some dr => dr
             | None => SimpleDocRetrieval.init tmp key
             end).
  assert (Hin : in_step dr (processed_files st)).
  { unfold tracked_names, stored_names in *. unfold in_step, dr.
    destruct (doc_retrieval st); [now split|].
    split; [exact Ht | constructor]. }
  assert (Hloop : in_step
            (snd (fst (if nonempty uploaded
                       then upload_loop dr (processed_files st) uploaded
                       else (Ok tt, dr, processed_files st))))
            (snd (if nonempty uploaded
                  then upload_loop dr (processed_files st) uploaded
                  else (Ok tt, dr, processed_files st)))).
  { destruct (nonempty uploaded); [now apply upload_loop_in_step | exact Hin]. }
  destruct (if nonempty uploaded
            then upload_loop dr (processed_files st) uploaded
            else (Ok tt, dr, processed_files st)) as [[[u|e] dr1] files1];
    cbn [fst snd] in Hloop.
  - destruct ((match files1 with Some l => nonempty l | None => false end) && cleared);
      cbn [snd].
    + split; [reflexivity | constructor].
    + exact Hloop.
  - exact Hloop.
Qed.

Lemma main_area_ok env q st : state_ok st -> state_ok (fst (main_area env q st)).
Proof.
  intros H. unfold main_area.
  destruct (doc_retrieval st) as [dr|] eqn:Ed; [|exact H].
  destruct (truthy q); [|exact H].
  destruct (SimpleDocRetrieval.query env dr q) as [answer events]. cbn [fst].
  unfold state_ok, tracked_names, stored_names in *. cbn. now rewrite Ed in H.
Qed.

Lemma script_ok tmp st i :
  well_named i = true -> state_ok st -> state_ok (script tmp st i).
Proof.
  intros Hn H. unfold script.
  pose proof (sidebar_ok tmp (api_key i) (uploaded_files i) (clear_clicked i) st Hn H)
    as Hs.
  destruct (sidebar tmp (api_key i) (uploaded_files i) (clear_clicked i) st)
    as [[| |e] st1]; cbn [snd] in Hs; try exact Hs.
  now apply main_area_ok.
Qed.

Lemma session_ok tmp runs :
  forallb well_named runs = true -> state_ok (session tmp runs).
Proof.
  unfold session.
  assert (H0 : state_ok empty_state) by (split; [reflexivity | constructor]).
  revert H0. generalize empty_state.
  induction runs as [|i runs IH]; intros st H Hn; cbn [fold_left]; [exact H|].
  cbn [forallb] in Hn. apply andb_true_iff in Hn. destruct Hn as [Hi Hr].
  apply IH; [now apply script_ok | exact Hr].
Qed.

(** X25. In a session of simple_app.py in which the uploaded files have plain
    names (no [/]), the names listed as processed are, in order, the names
    under which the retrieval object holds a Document, and they are pairwise
    distinct: the sidebar never hands [add_document] a name that is already
    stored, so no stored Document is overwritten. *)
Theorem app_tracks_store (tmp : string) (runs : list interaction) :
  forallb well_named runs = true ->
  tracked_names (session tmp runs) = stored_names (session tmp runs)
  /\ NoDup (stored_names (session tmp runs)).
Proof. exact (session_ok tmp runs). Qed.

Lemma app_tracks_store_witness :
  tracked_names (session "/tmp" [first_run; first_run])
  = stored_names (session "/tmp" [first_run; first_run])
  /\ NoDup (stored_names (session "/tmp" [first_run; first_run])).
Proof.
  apply (app_tracks_store "/tmp" [first_run; first_run]). reflexivity.
Defined.

(** X26. Uploaded files whose names are all listed as processed are skipped:
    the sidebar writes nothing, calls [add_document] for none of them and
    leaves the retrieval object and the list as they were, whatever the files
    now contain. *)
Theorem tracked_uploads_skipped
  (dr : SimpleDocRetrieval.t) (files : list processed_file)
  (uploaded : list uploaded_file) :
  forallb (fun f => mem_str (name f) (map filename files)) uploaded = true ->
  upload_loop dr (Some files) uploaded = (Ok tt, dr, Some files).
Proof.
  induction uploaded as [|f fs IH]; intros H; cbn [upload_loop]; [reflexivity|].
  cbn [forallb] in H. apply andb_true_iff in H. destruct H as [Hf Hfs].
  unfold process_upload. rewrite Hf. now apply IH.
Qed.

Lemma tracked_uploads_skipped_witness :
  upload_loop (SimpleDocRetrieval.init "/tmp" "key")
    (Some [mkProcessed "a.txt" "/tmp/simple_doc_retrieval/a.txt" "2024-05-01T10:00:00"])
    (uploaded_files first_run)
  = (Ok tt, SimpleDocRetrieval.init "/tmp" "key",
     Some [mkProcessed "a.txt" "/tmp/simple_doc_retrieval/a.txt" "2024-05-01T10:00:00"]).
Proof.
  apply (tracked_uploads_skipped (SimpleDocRetrieval.init "/tmp" "key")
           [mkProcessed "a.txt" "/tmp/simple_doc_retrieval/a.txt" "2024-05-01T10:00:00"]
           (uploaded_files first_run)).
  reflexivity.
Defined.

(** X27. In such a session, as long as no file is listed as processed, a
    question is answered with the no-documents sentence and without a
    request to the model; the chat history grows by the question and that
    answer. *)
Theorem app_question_without_documents
  (tmp : string) (runs : list interaction)
  (env : SimpleDocRetrieval.Env) (q : string) (dr : SimpleDocRetrieval.t) :
  forallb well_named runs = true ->
  tracked_names (session tmp runs) = [] ->
  doc_retrieval (session tmp runs) = Some dr ->
  q <> "" ->
  main_area env q (session tmp runs)
  = (mkState (Some dr) (processed_files (session tmp runs))
       (Some ((match chat_history (session tmp runs) with
               | Some h => h
               | None => []
               end)
              ++ [mkMessage "user" q;
                  mkMessage "assistant"
                    "No documents have been added to the system."])%list),
     []).
Proof.
  intros Hn Ht Hd Hq.
  destruct (session_ok tmp runs Hn) as [Hts _].
  unfold main_area. rewrite Hd.
  apply truthy_true_iff in Hq. rewrite Hq.
  rewrite Ht in Hts. unfold stored_names in Hts. rewrite Hd in Hts.
  unfold SimpleDocRetrieval.query.
  destruct (SimpleDocRetrieval.documents dr); [reflexivity | discriminate].
Qed.

Lemma app_question_without_documents_witness :
  main_area (machine first_run) "And then?" (session "/tmp" [asking_run])
  = (mkState (Some (SimpleDocRetrieval.init "/tmp" "key"))
       (processed_files (session "/tmp" [asking_run]))
       (Some ((match chat_history (session "/tmp" [asking_run]) with
               | Some h => h
               | None => []
               end)
              ++ [mkMessage "user" "And then?";
                  mkMessage "assistant"
                    "No documents have been added to the system."])%list),
     []).
Proof.
  apply (app_question_without_documents "/tmp" [asking_run] (machine first_run)
           "And then?" (SimpleDocRetrieval.init "/tmp" "key"));
    try reflexivity. discriminate.
Defined.

End AppProps.

(** ** The crew *)

Module CrewProps.
Import PyFacts CrewViews.
Import MultimodalCrewAgents.



End CrewProps.
